(** * causalimpact/main.py: input validation of the Causal Impact pipeline

    A shallow embedding of [src/causalimpact/main.py].  Python values are an
    inductive type, exceptions are an error monad, the instance [self] is a
    record that the methods thread explicitly, and each method of
    [CausalImpact] is one definition carrying the method's name. *)

From Stdlib Require Import ZArith List String Ascii Bool Floats Lia.
Import ListNotations.

Set Warnings "-inexact-float,-register-all".
Local Open Scope string_scope.

(** ** Exceptions *)

Module Exn.

(** The exception classes that the source raises or lets escape. *)
Inductive exn : Type :=
| ValueError (msg : string)
| TypeError (msg : string)
| NameError (name : string)
| AttributeError (name : string)
| KeyError (key : string)
| IndexError (msg : string)
| IndexingError (msg : string)
| OverflowError (msg : string).

Inductive result (A : Type) : Type :=
| OK (a : A)
| Raise (e : exn).

Arguments OK {A} a.
Arguments Raise {A} e.

Definition bind {A B : Type} (m : result A) (k : A -> result B) : result B :=
  match m with
  | OK a => k a
  | Raise e => Raise e
  end.

(** Evaluating a name that no enclosing scope binds. *)
Definition unbound_name {A : Type} (name : string) : result A :=
  Raise (NameError name).

Definition is_OK {A : Type} (m : result A) : bool :=
  match m with OK _ => true | Raise _ => false end.

End Exn.
Export Exn.

Declare Scope py_scope.
Delimit Scope py_scope with py.
Notation "x <- m ;; k" := (bind m (fun x => k))
  (at level 61, m at next level, right associativity) : py_scope.
Notation "' pat <- m ;; k" := (bind m (fun x => match x with pat => k end))
  (at level 61, pat pattern, m at next level, right associativity) : py_scope.
Local Open Scope py_scope.

(** ** pandas containers *)

Module Pandas.

(** A cell of a frame: a float64 number (NaN included), or an entry that
    [numpy.isreal] does not accept. *)
Inductive cell : Type :=
| Num (x : float)
| Other (repr : string).

Definition np_isreal (c : cell) : bool :=
  match c with Num _ => true | Other _ => false end.

Definition isna (c : cell) : bool :=
  match c with Num x => PrimFloat.is_nan x | Other _ => false end.

(** What [get_loc] answers: one position; a run of positions, for a partial
    date on an ordered index; or a mask over the positions. *)
Inductive loc : Type :=
| At (k : Z)
| Span (start stop : Z)
| Mask (hits : list bool).

(** The index of a frame.  A [DatetimeIndex] is kept as the labels that
    address its positions, one spelling for each, taken to be distinct.
    pandas reads a label as a date, so a string that is none of these
    spellings may be found all the same (another spelling of a date that
    the index holds, a partial date) or not: what the index answers to
    such a string is its [elsewhere]. *)
Inductive Index : Type :=
| RangeIndex (stop : nat)
| DatetimeIndex (labels : list string) (elsewhere : string -> result loc).

Definition index_len (i : Index) : nat :=
  match i with
  | RangeIndex n => n
  | DatetimeIndex labels _ => List.length labels
  end.

Definition isinstance_DatetimeIndex (i : Index) : bool :=
  match i with DatetimeIndex _ _ => true | RangeIndex _ => false end.

Definition Series : Type := list cell.

(** A frame, stored by column: column 0 is the response, the others are the
    covariates.  A well-formed frame has [index_len index] cells in each
    column. *)
Record DataFrame : Type := mkFrame {
  index : Index;
  columns : list Series
}.

(** [data.shape] *)
Definition shape0 (d : DataFrame) : nat := index_len (index d).
Definition shape1 (d : DataFrame) : nat := List.length (columns d).

(** [data.applymap(f).values.all()] *)
Definition applymap_all (f : cell -> bool) (d : DataFrame) : bool :=
  forallb (forallb f) (columns d).

(** [data.isna().values.all()] *)
Definition isna_values_all (d : DataFrame) : bool := applymap_all isna d.

Fixpoint position (label : string) (labels : list string) : option Z :=
  match labels with
  | [] => None
  | l :: rest =>
      if String.eqb l label then Some 0%Z
      else option_map Z.succ (position label rest)
  end.

(** [index.get_loc(label)] for a string label: the position of the label
    when it is one of the spellings kept, the answer of the index itself
    otherwise.  A [RangeIndex] holds no string. *)
Definition get_loc (i : Index) (label : string) : result loc :=
  match i with
  | DatetimeIndex labels elsewhere =>
      match position label labels with
      | Some k => OK (At k)
      | None => elsewhere label
      end
  | RangeIndex _ => Raise (KeyError label)
  end.

End Pandas.
Export Pandas.

(** ** Python values *)

Module Py.

Inductive pyobj : Type :=
| PyNone
| PyBool (b : bool)
| PyInt (z : Z)
| PyFloat (x : float)
| PyStr (s : string)
| PyList (items : list pyobj)
| PyDict (items : list (string * pyobj))
| PyArray (values : list Series)
| PyFrame (d : DataFrame)
| PyInstance (cls : string) (attrs : list (string * pyobj)).

(** [o is None] *)
Definition is_None (o : pyobj) : bool :=
  match o with PyNone => true | _ => false end.

Definition isinstance_int (o : pyobj) : bool :=
  match o with PyInt _ | PyBool _ => true | _ => false end.

Definition isinstance_float (o : pyobj) : bool :=
  match o with PyFloat _ => true | _ => false end.

Definition isinstance_str (o : pyobj) : bool :=
  match o with PyStr _ => true | _ => false end.

Definition isinstance_bool (o : pyobj) : bool :=
  match o with PyBool _ => true | _ => false end.

Definition isinstance (o : pyobj) (cls : string) : bool :=
  match o with PyInstance c _ => String.eqb c cls | _ => false end.

Definition nonempty {A : Type} (l : list A) : bool :=
  match l with [] => false | _ :: _ => true end.

Definition cell_truthy (c : cell) : bool :=
  match c with Num x => negb (PrimFloat.eqb x 0) | Other _ => true end.

(** [bool(o)]: the truth value that [if o] and [not o] test.  A frame has
    none, and neither has an array of more than one element. *)
Definition truthy (o : pyobj) : result bool :=
  match o with
  | PyNone => OK false
  | PyBool b => OK b
  | PyInt z => OK (negb (z =? 0)%Z)
  | PyFloat x => OK (negb (PrimFloat.eqb x 0))
  | PyStr s => OK (match s with EmptyString => false | String _ _ => true end)
  | PyList items => OK (nonempty items)
  | PyDict items => OK (nonempty items)
  | PyArray values =>
      match List.concat values with
      | [] => OK false
      | [c] => OK (cell_truthy c)
      | _ => Raise (ValueError
          "The truth value of an array with more than one element is ambiguous. Use a.any() or a.all()")
      end
  | PyFrame _ => Raise (ValueError
      "The truth value of a DataFrame is ambiguous. Use a.empty, a.bool(), a.item(), a.any() or a.all().")
  | PyInstance _ _ => OK true
  end.

(** [[x for x in items if x]] *)
Fixpoint filter_truthy (items : list pyobj) : result (list pyobj) :=
  match items with
  | [] => OK []
  | x :: rest =>
      b <- truthy x ;;
      kept <- filter_truthy rest ;;
      OK (if b then x :: kept else kept)
  end.

(** [items[i]] on a list. *)
Definition getitem (items : list pyobj) (i : nat) : result pyobj :=
  match nth_error items i with
  | Some x => OK x
  | None => Raise (IndexError "list index out of range")
  end.

(** Numbers: [bool] is a subclass of [int]. *)
Inductive number : Type :=
| NInt (z : Z)
| NFloat (x : float).

Definition as_number (o : pyobj) : option number :=
  match o with
  | PyBool b => Some (NInt (if b then 1 else 0)%Z)
  | PyInt z => Some (NInt z)
  | PyFloat x => Some (NFloat x)
  | _ => None
  end.

(** [float(z)]: rounded to nearest even, [OverflowError] beyond the range. *)
Definition float_of_Z (z : Z) : result float :=
  let x := SF2Prim (binary_normalize prec emax z 0 false) in
  if PrimFloat.is_infinity x
  then Raise (OverflowError "int too large to convert to float")
  else OK x.

(** [type(o).__name__] *)
Definition type_name (o : pyobj) : string :=
  match o with
  | PyNone => "NoneType"
  | PyBool _ => "bool"
  | PyInt _ => "int"
  | PyFloat _ => "float"
  | PyStr _ => "str"
  | PyList _ => "list"
  | PyDict _ => "dict"
  | PyArray _ => "numpy.ndarray"
  | PyFrame _ => "DataFrame"
  | PyInstance cls _ => cls
  end.

(** [a - b] on the values that the periods are made of: numbers subtract,
    and [None], strings, lists and dicts have no subtraction. *)
Definition py_sub (a b : pyobj) : result pyobj :=
  match as_number a, as_number b with
  | Some (NInt x), Some (NInt y) => OK (PyInt (x - y))
  | Some (NFloat x), Some (NFloat y) => OK (PyFloat (x - y))
  | Some (NInt x), Some (NFloat y) =>
      x' <- float_of_Z x ;; OK (PyFloat (x' - y))
  | Some (NFloat x), Some (NInt y) =>
      y' <- float_of_Z y ;; OK (PyFloat (x - y'))
  | _, _ =>
      Raise (TypeError
        ("unsupported operand type(s) for -: '" ++ type_name a ++ "' and '"
         ++ type_name b ++ "'"))
  end.

(** The exact order between an integer and a float; [None] on NaN. *)
Definition Z_compare_float (z : Z) (x : float) : option comparison :=
  match Prim2SF x with
  | S754_nan => None
  | S754_zero _ => Some (z ?= 0)%Z
  | S754_infinity s => Some (if s then Gt else Lt)
  | S754_finite s m e =>
      let v := (if s then Z.opp (Z.pos m) else Z.pos m) in
      Some (if (0 <=? e)%Z
            then (z ?= v * 2 ^ e)%Z
            else (z * 2 ^ (- e) ?= v)%Z)
  end.

Definition not_supported (op : string) (a b : pyobj) : exn :=
  TypeError ("'" ++ op ++ "' not supported between instances of '"
             ++ type_name a ++ "' and '" ++ type_name b ++ "'").

(** [a < b] on numbers and on strings. *)
Definition py_lt (a b : pyobj) : result bool :=
  match as_number a, as_number b with
  | Some (NInt x), Some (NInt y) => OK (x <? y)%Z
  | Some (NFloat x), Some (NFloat y) => OK (PrimFloat.ltb x y)
  | Some (NInt x), Some (NFloat y) =>
      OK (match Z_compare_float x y with Some Lt => true | _ => false end)
  | Some (NFloat x), Some (NInt y) =>
      OK (match Z_compare_float y x with Some Gt => true | _ => false end)
  | _, _ =>
      match a, b with
      | PyStr s, PyStr t => OK (String.ltb s t)
      | _, _ => Raise (not_supported "<" a b)
      end
  end.

(** [a > b]: [b < a] where that is defined. *)
Definition py_gt (a b : pyobj) : result bool :=
  match py_lt b a with
  | OK r => OK r
  | Raise _ => Raise (not_supported ">" a b)
  end.

(** A position, a slice or a mask as a Python value. *)
Definition loc_obj (l : loc) : pyobj :=
  match l with
  | At k => PyInt k
  | Span start stop =>
      PyInstance "slice"
        [("start", PyInt start); ("stop", PyInt stop); ("step", PyNone)]
  | Mask hits =>
      PyArray [map (fun hit : bool => Num (if hit then 1 else 0)) hits]
  end.

(** [d.get(key)] and [d[key]] on an insertion-ordered dict. *)
Fixpoint dict_get (items : list (string * pyobj)) (key : string) : option pyobj :=
  match items with
  | [] => None
  | (k, v) :: rest => if String.eqb k key then Some v else dict_get rest key
  end.

(** [d.pop(key)]: the value, and the dict without the key. *)
Definition dict_pop (items : list (string * pyobj)) (key : string)
  : result (pyobj * list (string * pyobj)) :=
  match dict_get items key with
  | Some v => OK (v, filter (fun kv => negb (String.eqb (fst kv) key)) items)
  | None => Raise (KeyError key)
  end.

(** [obj.name] *)
Definition getattr (o : pyobj) (name : string) : result pyobj :=
  match o with
  | PyInstance _ attrs =>
      match dict_get attrs name with
      | Some v => OK v
      | None => Raise (AttributeError name)
      end
  | _ => Raise (AttributeError name)
  end.

End Py.
Export Py.

(** ** What main.py takes from elsewhere *)

(** [standardize] comes from [causalimpact.misc], [pd.DataFrame] from pandas,
    and [train] is the method of the statsmodels model.  The two methods
    [_process_causal_kwargs] and [_process_causal_input_model] that
    [_check_input_data] calls are not defined in main.py; they can only come
    from the base class [Inferences] of [causalimpact.inferences]. *)
Class Externals : Type := {
  standardize : DataFrame -> DataFrame * (Series * Series);
  pd_DataFrame : pyobj -> result DataFrame;
  _process_causal_kwargs : list (string * pyobj) -> result pyobj;
  _process_causal_input_model : pyobj -> result pyobj;
  train : pyobj -> result pyobj
}.

(** ** class CausalImpact(BaseCausal) *)

Module CausalImpact.

(** The attributes of an instance.  [BaseCausal.__init__] sets the first
    seven; the last three are unset until their assignment. *)
Record self_t : Type := mkSelf {
  data : pyobj;
  pre_period : pyobj;
  post_period : pyobj;
  pre_data : DataFrame;
  post_data : DataFrame;
  alpha : pyobj;
  mu_sig : option (cell * cell);
  _model_args : option pyobj;
  _model : option pyobj;
  trained_model : option pyobj
}.

Definition set_pre_data (self : self_t) (v : DataFrame) : self_t :=
  mkSelf (data self) (pre_period self) (post_period self) v (post_data self)
         (alpha self) (mu_sig self) (_model_args self) (_model self)
         (trained_model self).

Definition set_post_data (self : self_t) (v : DataFrame) : self_t :=
  mkSelf (data self) (pre_period self) (post_period self) (pre_data self) v
         (alpha self) (mu_sig self) (_model_args self) (_model self)
         (trained_model self).

Definition set_mu_sig (self : self_t) (v : cell * cell) : self_t :=
  mkSelf (data self) (pre_period self) (post_period self) (pre_data self)
         (post_data self) (alpha self) (Some v) (_model_args self)
         (_model self) (trained_model self).

Definition set__model_args (self : self_t) (v : pyobj) : self_t :=
  mkSelf (data self) (pre_period self) (post_period self) (pre_data self)
         (post_data self) (alpha self) (mu_sig self) (Some v) (_model self)
         (trained_model self).

Definition set__model (self : self_t) (v : pyobj) : self_t :=
  mkSelf (data self) (pre_period self) (post_period self) (pre_data self)
         (post_data self) (alpha self) (mu_sig self) (_model_args self)
         (Some v) (trained_model self).

Definition set_trained_model (self : self_t) (v : pyobj) : self_t :=
  mkSelf (data self) (pre_period self) (post_period self) (pre_data self)
         (post_data self) (alpha self) (mu_sig self) (_model_args self)
         (_model self) (Some v).

(** What [_check_input_data] returns: a dict with these eight keys. *)
Record checked_input_t : Type := mkChecked {
  ci_data : pyobj;
  ci_pre_period : pyobj;
  ci_post_period : pyobj;
  ci_pre_data : DataFrame;
  ci_post_data : DataFrame;
  ci_model : pyobj;
  ci_alpha : pyobj;
  ci_model_args : pyobj
}.

(** *** Frame arithmetic of [_standardize_pre_post_data] *)

Definition cell_binop (op : float -> float -> float) (a b : cell) : result cell :=
  match a, b with
  | Num x, Num y => OK (Num (op x y))
  | _, _ => Raise (TypeError "unsupported operand type(s)")
  end.

Fixpoint map_result {A B : Type} (f : A -> result B) (l : list A) : result (list B) :=
  match l with
  | [] => OK []
  | a :: rest => b <- f a ;; bs <- map_result f rest ;; OK (b :: bs)
  end.

(** [frame op series]: the series holds one entry per column, in the order
    of the columns; a column without an entry becomes NaN. *)
Fixpoint broadcast (op : float -> float -> float) (cols : list Series) (s : Series)
  : result (list Series) :=
  match cols with
  | [] => OK []
  | col :: cols' =>
      let p := match s with [] => Num PrimFloat.nan | p :: _ => p end in
      col' <- map_result (fun c => cell_binop op c p) col ;;
      rest <- broadcast op cols' (tl s) ;;
      OK (col' :: rest)
  end.

Definition frame_binop (op : float -> float -> float) (d : DataFrame) (s : Series)
  : result DataFrame :=
  cols <- broadcast op (columns d) s ;; OK (mkFrame (index d) cols).

(** [(frame - mu) / sig] *)
Definition rescale (d : DataFrame) (mu sig : Series) : result DataFrame :=
  centred <- frame_binop PrimFloat.sub d mu ;;
  frame_binop PrimFloat.div centred sig.

(** The number in the first row of column 0, if there is one. *)
Definition first_value (d : DataFrame) : option float :=
  match columns d with
  | (Num x :: _) :: _ => Some x
  | _ => None
  end.

(** [series[0]] *)
Definition series_getitem0 (s : Series) : result cell :=
  match s with
  | c :: _ => OK c
  | [] => Raise (KeyError "0")
  end.

(** [frame[key]] with the tuple [key] of a slice and a position or a slice,
    as lines 207-208 write it.  A frame takes a column label or a slice of
    rows for key and refuses such a tuple; the text of the message is
    pandas' and varies with its version. *)
Definition frame_getitem_tuple (d : DataFrame) (key : string) : result pyobj :=
  Raise (TypeError ("'" ++ key ++ "' is an invalid key")).

(** [obj.values] *)
Definition values_of (o : pyobj) : result pyobj :=
  match o with
  | PyFrame d => OK (PyArray (columns d))
  | _ => Raise (AttributeError "values")
  end.

(** [data.iloc[a, b, :]]: three indexers on a frame of two dimensions. *)
Definition iloc3 (d : DataFrame) (a b : pyobj) : result DataFrame :=
  Raise (IndexingError "Too many indexers").

(** [period[i]] *)
Definition subscript (o : pyobj) (i : nat) : result pyobj :=
  match o with
  | PyList items => getitem items i
  | _ => Raise (TypeError "object is not subscriptable")
  end.

(** [try: body except AttributeError: handler] *)
Definition except_AttributeError {A : Type} (body handler : result A) : result A :=
  match body with
  | Raise (AttributeError _) => handler
  | r => r
  end.

(** *** Methods that use nothing from outside main.py *)

(** Lines 199-209.  main.py imports numpy, pandas, [DatetimeIndex],
    [Inferences] and [standardize], and binds the name
    [UnobservedComponentsModel] nowhere; the call looks the name up before
    it evaluates the keyword arguments. *)
Definition _construct_default_model (self : self_t) : result pyobj :=
  UnobservedComponentsModel <- unbound_name "UnobservedComponentsModel" ;;
  response <- frame_getitem_tuple (pre_data self) "(slice(None, None, None), 0)" ;;
  exog <- values_of response ;;
  covariates <-
    frame_getitem_tuple (pre_data self)
      "(slice(None, None, None), slice(1, None, None))" ;;
  endog <- values_of covariates ;;
  let model : pyobj :=
    UnobservedComponentsModel
      [("exog", exog); ("level", PyStr "llevel"); ("endog", endog)] in
  OK model.

(** Lines 170-175, the setter of the property [model]. *)
Definition model_setter (self : self_t) (value : pyobj) : result self_t :=
  if is_None value
  then m <- _construct_default_model self ;; OK (set__model self m)
  else OK (set__model self value).

(** Lines 262-284.  Once [alpha] is known to be a float, [alpha < 0] and
    [alpha > 1] compare it with the integers 0 and 1, which are exact as
    floats.  The method has no [return]: it returns [None]. *)
Definition _process_alpha (alpha : pyobj) : result pyobj :=
  match alpha with
  | PyFloat x =>
      if PrimFloat.ltb x 0 || PrimFloat.ltb 1 x
      then Raise (ValueError
        "``alpha`` must range between 0 (zero) and 1 (one) inclusive.")
      else OK PyNone
  | _ => Raise (ValueError "``alpha`` must be of type `float`.")
  end.

(** Lines 308-323: the three attribute checks and the return. *)
Definition check_model_attributes (model : pyobj) : result pyobj :=
  _ <- except_AttributeError
    (level <- getattr model "level" ;;
     t <- truthy level ;;
     if negb t
     then Raise (ValueError "Model must have `level` attribute set.")
     else OK tt)
    (Raise (ValueError "Model must have attribute level")) ;;
  _ <- except_AttributeError
    (exog <- getattr model "exog" ;;
     t <- truthy exog ;;
     if negb t
     then Raise (ValueError "Model must have `exog` attribute set.")
     else OK tt)
    (Raise (ValueError "Model must have attribute exog")) ;;
  _ <- except_AttributeError
    (data <- getattr model "data" ;;
     t <- truthy data ;;
     if negb t
     then Raise (ValueError "Model must have `data` attribute set.")
     else OK tt)
    (Raise (ValueError "Model must have attribute exog")) ;;
  OK model.

(** Lines 286-323.  The second argument of [isinstance] on line 304 is the
    name [UnobservedComponentsModel], which main.py binds nowhere. *)
Definition _process_input_model (model : pyobj) : result pyobj :=
  UnobservedComponentsModel <- unbound_name "UnobservedComponentsModel" ;;
  if negb (isinstance model UnobservedComponentsModel)
  then Raise (ValueError
    "Input ``model`` must be of type ``UnobservedComponentsModel``")
  else check_model_attributes model.

(** Lines 325-349.  [ValueException] is bound nowhere. *)
Definition _process_kwargs (kwargs : list (string * pyobj)) : result pyobj :=
  let standardize' :=
    match dict_get kwargs "standardize" with Some v => v | None => PyNone end in
  let standardize' := if is_None standardize' then PyBool false else standardize' in
  if negb (isinstance_bool standardize')
  then unbound_name "ValueException"
  else OK (PyDict [("standardize", standardize')]).

(** Lines 473-499.  The caller passes string labels only (lines 454-461);
    what [get_loc] answers is appended as it is. *)
Fixpoint _convert_str_period_to_int (period : list string) (data : DataFrame)
  : result (list loc) :=
  match period with
  | [] => OK []
  | date :: rest =>
      match get_loc (index data) date with
      | OK offset =>
          result <- _convert_str_period_to_int rest data ;; OK (offset :: result)
      | Raise (KeyError _) =>
          Raise (ValueError (date ++ " is not preset in data index"))
      | Raise e => Raise e
      end
  end.

Definition str_items (items : list pyobj) : result (list string) :=
  map_result (fun o => match o with
                       | PyStr s => OK s
                       | _ => Raise (TypeError "label is not a string")
                       end) items.

(** Lines 426-471.  On line 463 the name [data] is not bound: the parameter
    is [data_index]. *)
Definition _process_period (period : pyobj) (data_index : Index) : result pyobj :=
  match period with
  | PyList items =>
      if negb (List.length items =? 2)%nat
      then Raise (ValueError
        "``period`` must have two values regarding the beginning and end of the pre and post intervention data")
      else
        none_args <- filter_truthy items ;;
        if nonempty none_args
        then Raise (ValueError "Input period cannot have `None` values")
        else
          p0 <- getitem items 0 ;;
          p1 <- getitem items 1 ;;
          if negb ((isinstance_int p0 && isinstance_int p1)
                   || (isinstance_str p1 && isinstance_str p1))
          then Raise (ValueError "Input must contain either `int` or `str`")
          else
            period <-
              (if isinstance_str p0
               then
                 if isinstance_DatetimeIndex data_index
                 then
                   data <- unbound_name "data" ;;
                   labels <- str_items items ;;
                   offsets <- _convert_str_period_to_int labels data ;;
                   OK (map loc_obj offsets)
                 else Raise (ValueError
                   "If input ``period`` is string then input ``data`` must have index of type `DatetimeIndex`.")
               else OK items) ;;
            q0 <- getitem period 0 ;;
            q1 <- getitem period 1 ;;
            span <- py_sub q1 q0 ;;
            short <- py_lt span (PyInt 3) ;;
            if short
            then Raise (ValueError "``pre_period`` must span at least 3 time points")
            else OK (PyList period)
  | _ => Raise (ValueError "Input ``period`` must be of type `list`.")
  end.

(** Lines 410-424: the three comparisons and the two slices, on the periods
    that lines 407-408 resolved.  Line 419 is taken with the message its
    string literal holds; as written, a full stop follows the closing
    quote. *)
Definition check_and_slice (data : DataFrame) (pre_period post_period : pyobj)
  : result (DataFrame * DataFrame) :=
  pre1 <- subscript pre_period 1 ;;
  post0 <- subscript post_period 0 ;;
  overlap <- py_gt pre1 post0 ;;
  if overlap
  then Raise (ValueError
    "Values in training data cannot be present in the post-intervention data. Please fix your pre_period value to cover at most one point less from when the intervention happened.")
  else
    post1 <- subscript post_period 1 ;;
    post_reversed <- py_lt post1 post0 ;;
    if post_reversed
    then Raise (ValueError "``post_period`` last number must be bigger than its first.")
    else
      pre0 <- subscript pre_period 0 ;;
      pre_reversed <- py_lt pre1 pre0 ;;
      if pre_reversed
      then Raise (ValueError "``pre_period`` last number must be bigger than its first")
      else
        pre_data <- iloc3 data pre0 pre1 ;;
        post_data <- iloc3 data post0 post1 ;;
        OK (pre_data, post_data).

(** Lines 389-424. *)
Definition _process_pre_post_data (data : DataFrame) (pre_period post_period : pyobj)
  : result (DataFrame * DataFrame) :=
  pre_period <- _process_period pre_period (index data) ;;
  post_period <- _process_period post_period (index data) ;;
  check_and_slice data pre_period post_period.

(** Lines 156-158 and 166-168, the getters of the properties [model_args]
    and [model]: they read the attribute that the setter assigns, which an
    instance lacks until then. *)
Definition model_args_getter (self : self_t) : result pyobj :=
  match _model_args self with
  | Some v => OK v
  | None => Raise (AttributeError "_model_args")
  end.

Definition model_getter (self : self_t) : result pyobj :=
  match _model self with
  | Some v => OK v
  | None => Raise (AttributeError "_model")
  end.

(** *** Methods that call out of main.py *)

Section WithExternals.

Context {ext : Externals}.

(** Lines 351-387. *)
Definition _format_input_data (data : pyobj) : result DataFrame :=
  data <-
    (match data with
     | PyFrame d => OK d
     | _ =>
         match pd_DataFrame data with
         | Raise (ValueError err) =>
             Raise (ValueError
               ("Input ``data`` is not valid. Cause of error: " ++ err))
         | r => r
         end
     end) ;;
  if negb (applymap_all np_isreal data)
  then Raise (ValueError "Input ``data`` must contain only numeric values")
  else if (shape0 data <? 3)%nat
  then Raise (ValueError "Input data must have more than 3 points")
  else if (1 <? shape1 data)%nat
  then
    if isna_values_all data
    then Raise (ValueError "Input data cannot have NAN values")
    else OK data
  else OK data.

(** [[arg for arg, value in input_args.items() if value is None]] *)
Definition none_args_of (input_args : list (string * pyobj)) : list string :=
  map fst (filter (fun kv => is_None (snd kv)) input_args).

(** Lines 240-260.  [locals()] holds the seven parameters in the order of
    the signature; [kwargs] is the dict of the extra keyword arguments. *)
Definition _check_input_data (self data pre_period post_period model alpha : pyobj)
  (kwargs : list (string * pyobj)) : result checked_input_t :=
  let input_args :=
    [("self", self); ("data", data); ("pre_period", pre_period);
     ("post_period", post_period); ("model", model); ("alpha", alpha);
     ("kwargs", PyDict kwargs)] in
  '(model, input_args) <- dict_pop input_args "model" ;;
  let none_args := none_args_of input_args in
  if nonempty none_args
  then Raise (ValueError (String.concat ", " none_args ++ " cannot be empty"))
  else
    processed_data <- _format_input_data data ;;
    '(pre_data, post_data) <-
      _process_pre_post_data processed_data pre_period post_period ;;
    model_args <- _process_causal_kwargs kwargs ;;
    has_model <- truthy model ;;
    model <- (if has_model then _process_causal_input_model model else OK model) ;;
    OK (mkChecked data pre_period post_period pre_data post_data model alpha
                  model_args).

(** Lines 177-185.  Line 183 reads [normed_data]; the name bound on line 182
    is [normed_pre_data]. *)
Definition _standardize_pre_post_data (self : self_t) : result self_t :=
  let '(normed_pre_data, (mu, sig)) := standardize (pre_data self) in
  normed_data <- unbound_name "normed_data" ;;
  let self := set_pre_data self normed_data in
  scaled <- rescale (post_data self) mu sig ;;
  let self := set_post_data self scaled in
  mu0 <- series_getitem0 mu ;;
  sig0 <- series_getitem0 sig ;;
  OK (set_mu_sig self (mu0, sig0)).

(** The names bound when the body of [_process_posterior_inferences]
    (lines 196-197) has run; [post_mu_sig] is the pair that line 197 binds
    to [_]. *)
Record posterior_locals : Type := mkLocals {
  normed_pre_data : DataFrame;
  mu : Series;
  sig : Series;
  normed_post_data : DataFrame;
  post_mu_sig : Series * Series
}.

Definition _process_posterior_inferences_locals (self : self_t) : posterior_locals :=
  let '(normed_pre_data, (mu, sig)) := standardize (pre_data self) in
  let '(normed_post_data, unused) := standardize (post_data self) in
  mkLocals normed_pre_data mu sig normed_post_data unused.

(** Lines 187-197.  The method binds its locals and returns [None]. *)
Definition _process_posterior_inferences (self : self_t) : pyobj :=
  let _ := _process_posterior_inferences_locals self in PyNone.

(** Lines 160-164, the setter of the property [model_args]. *)
Definition model_args_setter (self : self_t) (value : pyobj) : result self_t :=
  flag <-
    (match value with
     | PyDict items =>
         OK (match dict_get items "standardize" with
             | Some v => v
             | None => PyNone
             end)
     | _ => Raise (AttributeError "get")
     end) ;;
  on <- truthy flag ;;
  self <- (if on then _standardize_pre_post_data self else OK self) ;;
  OK (set__model_args self value).

(** Lines 52-60, [BaseCausal.__init__] called with the checked input as
    keyword arguments. *)
Definition BaseCausal__init__ (checked_input : checked_input_t) : self_t :=
  mkSelf (ci_data checked_input) (ci_pre_period checked_input)
         (ci_post_period checked_input) (ci_pre_data checked_input)
         (ci_post_data checked_input) (ci_alpha checked_input)
         None None None None.

(** Lines 147-154.  When [_check_input_data] runs, the new instance has no
    attribute yet. *)
Definition __init__ (data pre_period post_period model alpha : pyobj)
  (kwargs : list (string * pyobj)) : result self_t :=
  let self := PyInstance "CausalImpact" [] in
  checked_input <-
    _check_input_data self data pre_period post_period model alpha kwargs ;;
  let self := BaseCausal__init__ checked_input in
  self <- model_args_setter self (ci_model_args checked_input) ;;
  self <- model_setter self (ci_model checked_input) ;;
  model <- (match _model self with
            | Some m => OK m
            | None => Raise (AttributeError "_model")
            end) ;;
  trained <- train model ;;
  let self := set_trained_model self trained in
  let _ := _process_posterior_inferences self in
  OK self.

End WithExternals.

End CausalImpact.

(** ** A concrete environment *)

Module Reference.

(** [float(n)] for a count. *)
Definition float_of_nat (n : nat) : float :=
  SF2Prim (binary_normalize prec emax (Z.of_nat n) 0 false).

Definition cell_value (c : cell) : float :=
  match c with Num x => x | Other _ => PrimFloat.nan end.

Definition column_sum (col : list float) : float :=
  fold_left PrimFloat.add col 0%float.

Definition column_mean (col : list float) : float :=
  (column_sum col / float_of_nat (List.length col))%float.

Definition column_std (col : list float) : float :=
  let m := column_mean col in
  PrimFloat.sqrt
    (column_sum (map (fun x => ((x - m) * (x - m))%float) col)
     / float_of_nat (List.length col))%float.

(** Modelled from the spec: [standardize] of [causalimpact.misc], which is
    not among the sources.  Section 4.3 has it compute the mean and the
    standard deviation of each column and apply [(data - mu) / sigma]
    column by column; it returns the rescaled frame with [(mu, sigma)], as
    lines 182 and 196 unpack it.  The deviation is the population one. *)
Definition spec_standardize (d : DataFrame) : DataFrame * (Series * Series) :=
  let cols := map (map cell_value) (columns d) in
  let mu := map column_mean cols in
  let sig := map column_std cols in
  let rescale col :=
    let m := column_mean col in
    let s := column_std col in
    map (fun x => Num ((x - m) / s)%float) col in
  (mkFrame (index d) (map rescale cols), (map Num mu, map Num sig)).

(** A number as a float64 cell. *)
Definition number_cell (o : pyobj) : option cell :=
  match o with
  | PyInt z => Some (Num (SF2Prim (binary_normalize prec emax z 0 false)))
  | PyFloat x => Some (Num x)
  | PyBool b => Some (Num (if b then 1 else 0))
  | _ => None
  end.

Fixpoint all_some {A : Type} (l : list (option A)) : option (list A) :=
  match l with
  | [] => Some []
  | None :: _ => None
  | Some a :: rest => option_map (cons a) (all_some rest)
  end.

Definition number_list (o : pyobj) : option (list cell) :=
  match o with
  | PyList items => all_some (map number_cell items)
  | _ => None
  end.

Definition same_length (n : nat) (lists : list (list cell)) : bool :=
  forallb (fun l => (List.length l =? n)%nat) lists.

(** Rows of [n] cells each, turned into [n] columns. *)
Definition transpose (n : nat) (rows : list (list cell)) : list Series :=
  map (fun j => map (fun row => nth j row (Num PrimFloat.nan)) rows) (seq 0 n).

(** A stand-in for [pd.DataFrame(data)], each result under a fresh
    [RangeIndex]: an array gives its columns, a frame itself, a list of
    numbers one column, a list of rows of numbers of one length their
    columns, a dict of lists of numbers of one length those columns, and a
    number or a string is refused as pandas refuses it, as are a dict of
    lists of unequal length and a dict of numbers.  pandas converts more
    than this (rows of unequal length, entries that are not numbers),
    which the stand-in refuses. *)
Definition array_DataFrame (data : pyobj) : result DataFrame :=
  let refused :=
    Raise (ValueError "DataFrame constructor not properly called!") in
  match data with
  | PyArray values => OK (mkFrame (RangeIndex (List.length (hd [] values))) values)
  | PyFrame d => OK d
  | PyList items =>
      match all_some (map number_cell items) with
      | Some column =>
          OK (mkFrame (RangeIndex (List.length column))
                      (match column with [] => [] | _ :: _ => [column] end))
      | None =>
          match all_some (map number_list items) with
          | Some rows =>
              let n := List.length (hd [] rows) in
              if same_length n rows
              then OK (mkFrame (RangeIndex (List.length rows)) (transpose n rows))
              else refused
          | None => refused
          end
      end
  | PyDict items =>
      match all_some (map (fun kv => number_list (snd kv)) items) with
      | Some [] => OK (mkFrame (RangeIndex 0) [])
      | Some (first :: others) =>
          if same_length (List.length first) others
          then OK (mkFrame (RangeIndex (List.length first)) (first :: others))
          else Raise (ValueError "All arrays must be of the same length")
      | None =>
          match all_some (map (fun kv => number_cell (snd kv)) items) with
          | Some _ =>
              Raise (ValueError "If using all scalar values, you must pass an index")
          | None => refused
          end
      end
  | _ => refused
  end.

(** An environment for running the methods: the [spec_standardize] above, and a
    base class [Inferences] that defines neither of the two methods that
    main.py leaves undefined. *)
#[export] Instance externals : Externals := {|
  standardize := spec_standardize;
  pd_DataFrame := array_DataFrame;
  _process_causal_kwargs := fun _ => Raise (AttributeError "_process_causal_kwargs");
  _process_causal_input_model := fun _ => Raise (AttributeError "_process_causal_input_model");
  train := fun _ => OK (PyInstance "UnobservedComponentsResults" [])
|}.

(** Sample data: a response with one covariate, before and after. *)
Definition pre_frame : DataFrame :=
  mkFrame (RangeIndex 3)
    [[Num 1; Num 2; Num 3]; [Num 4; Num 5; Num 6]].

Definition post_frame : DataFrame :=
  mkFrame (RangeIndex 3)
    [[Num 10; Num 20; Num 30]; [Num 40; Num 50; Num 60]].

Definition sample_self : CausalImpact.self_t :=
  CausalImpact.mkSelf (PyFrame pre_frame) (PyList [PyInt 0; PyInt 3]) (PyList [PyInt 3; PyInt 6])
         pre_frame post_frame (PyFloat 0.05) None None None None.

(** A response with a covariate that is missing throughout, and the same
    with a second covariate that is not. *)
Definition missing_covariate_frame : DataFrame :=
  mkFrame (RangeIndex 3)
    [[Num 1; Num 2; Num 3];
     [Num PrimFloat.nan; Num PrimFloat.nan; Num PrimFloat.nan]].

Definition one_missing_covariate_frame : DataFrame :=
  mkFrame (RangeIndex 3)
    [[Num 1; Num 2; Num 3];
     [Num PrimFloat.nan; Num PrimFloat.nan; Num PrimFloat.nan];
     [Num 4; Num 5; Num 6]].

Definition all_missing_frame : DataFrame :=
  mkFrame (RangeIndex 3)
    [[Num PrimFloat.nan; Num PrimFloat.nan; Num PrimFloat.nan];
     [Num PrimFloat.nan; Num PrimFloat.nan; Num PrimFloat.nan]].

(** Four days of January 2018.  Besides the spellings kept, the index
    finds the same days written without hyphens and answers the month
    with the run of its positions; it has no other date. *)
Definition january : Index :=
  DatetimeIndex ["2018-01-01"; "2018-01-02"; "2018-01-03"; "2018-01-04"]
    (fun label =>
       if String.eqb label "20180101" then OK (At 0)
       else if String.eqb label "20180102" then OK (At 1)
       else if String.eqb label "20180103" then OK (At 2)
       else if String.eqb label "20180104" then OK (At 3)
       else if String.eqb label "2018-01" then OK (Span 0 4)
       else Raise (KeyError label)).

(** A second environment, with the same [pd.DataFrame] and everything else
    different: [standardize] leaves the frame as it is, the two methods of
    the base class pass their argument on, and training fails. *)
Definition other_externals : Externals := {|
  standardize := fun d => (d, ([], []));
  pd_DataFrame := array_DataFrame;
  _process_causal_kwargs := fun kwargs => OK (PyDict kwargs);
  _process_causal_input_model := fun model => OK model;
  train := fun _ => Raise (ValueError "the model was not fitted")
|}.

End Reference.

(** * Properties of the methods *)

Import CausalImpact.

(** ** Period resolution: [_process_period] *)

Section Period.

(** Case analysis on whatever a [match] or an [if] of the goal inspects. *)
Ltac split_scrutinee :=
  match goal with
  | |- context [match ?x with _ => _ end] =>
      first [ is_var x; destruct x | destruct x eqn:? ]
  end.

Ltac run_period := cbn; repeat (split_scrutinee; cbn); try reflexivity.

Lemma truthy_PyInt (z : Z) : truthy (PyInt z) = OK (negb (z =? 0)%Z).
Proof. reflexivity. Qed.

Lemma truthy_PyStr_nonempty (c : ascii) (s : string) :
  truthy (PyStr (String c s)) = OK true.
Proof. reflexivity. Qed.

(** A pair with at least one element that tests true is stopped by the
    check of line 451, whatever its other element. *)
Lemma truthy_left_stops (p0 p1 : pyobj) (data_index : Index) :
  truthy p0 = OK true ->
  (exists b, truthy p1 = OK b) ->
  _process_period (PyList [p0; p1]) data_index
  = Raise (ValueError "Input period cannot have `None` values").
Proof.
  intros H0 [b H1]. unfold _process_period. cbn.
  rewrite H0, H1. cbn. reflexivity.
Qed.

Lemma truthy_right_stops (p0 p1 : pyobj) (data_index : Index) :
  (exists b, truthy p0 = OK b) ->
  truthy p1 = OK true ->
  _process_period (PyList [p0; p1]) data_index
  = Raise (ValueError "Input period cannot have `None` values").
Proof.
  intros [b H0] H1. unfold _process_period. cbn.
  rewrite H0, H1. cbn. destruct b; reflexivity.
Qed.

(** No period at all comes back from [_process_period]. *)
Lemma _process_period_never_returns (period : pyobj) (data_index : Index) :
  is_OK (_process_period period data_index) = false.
Proof.
  destruct period as [ | | | | | items | | | | ]; try reflexivity.
  destruct items as [|p0 [|p1 [|p2 rest]]]; try reflexivity.
  destruct p0, p1; run_period.
  all: repeat match goal with
              | b : bool |- _ => destruct b
              | z : Z |- _ => destruct z
              end; cbn in *; discriminate.
Qed.

(** Claim C1.  An integer period [[a, b]] with [b - a >= 3] is not returned
    unchanged: one of its offsets is not zero, so the list built on line
    451 from the elements that test true is not empty, and line 453 raises
    the error meant for [None] elements.  This holds on any index, and so
    for [[0, 70]] and [[70, 100]] on 100 points. *)
Theorem C1_integer_period_raises :
  forall (a : Z) (k : N) (data_index : Index),
    _process_period (PyList [PyInt a; PyInt (a + 3 + Z.of_N k)]) data_index
    = Raise (ValueError "Input period cannot have `None` values").
Proof.
  intros a k data_index.
  destruct (a =? 0)%Z eqn:Ha.
  - apply truthy_right_stops.
    + exists false. rewrite truthy_PyInt, Ha. reflexivity.
    + rewrite truthy_PyInt. apply Z.eqb_eq in Ha.
      replace (a + 3 + Z.of_N k =? 0)%Z with false; [reflexivity|].
      symmetry. apply Z.eqb_neq. lia.
  - apply truthy_left_stops.
    + rewrite truthy_PyInt, Ha. reflexivity.
    + eexists. apply truthy_PyInt.
Qed.

Example end_to_end_pre_period :
  _process_period (PyList [PyInt 0; PyInt 70]) (RangeIndex 100)
  = Raise (ValueError "Input period cannot have `None` values").
Proof. reflexivity. Qed.

Example end_to_end_post_period :
  _process_period (PyList [PyInt 70; PyInt 100]) (RangeIndex 100)
  = Raise (ValueError "Input period cannot have `None` values").
Proof. reflexivity. Qed.

(** Claim C8.  A period of one integer offset and one date-like label, in
    either order, is rejected with a [ValueError]: the label, a non-empty
    string, tests true on line 451.  With an empty string in place of the
    label the pair is not accepted either. *)
Theorem C8_mixed_period_rejected :
  forall (z : Z) (c : ascii) (label : string) (data_index : Index),
    (_process_period (PyList [PyInt z; PyStr (String c label)]) data_index
     = Raise (ValueError "Input period cannot have `None` values")
     /\ _process_period (PyList [PyStr (String c label); PyInt z]) data_index
        = Raise (ValueError "Input period cannot have `None` values"))
    /\ (forall s : string,
          is_OK (_process_period (PyList [PyInt z; PyStr s]) data_index) = false
          /\ is_OK (_process_period (PyList [PyStr s; PyInt z]) data_index) = false).
Proof.
  intros z c label data_index. split; [split|].
  - apply truthy_right_stops; [eexists; apply truthy_PyInt | reflexivity].
  - apply truthy_left_stops; [reflexivity | eexists; apply truthy_PyInt].
  - intros s. split; apply _process_period_never_returns.
Qed.

(** *** String labels *)

Lemma position_sound (label : string) (labels : list string) (k : Z) :
  position label labels = Some k ->
  (0 <= k)%Z /\ nth_error labels (Z.to_nat k) = Some label.
Proof.
  revert k. induction labels as [|l rest IH]; intros k H; [discriminate|].
  cbn in H. destruct (String.eqb l label) eqn:E.
  - injection H as <-. apply String.eqb_eq in E. subst. split; [lia|reflexivity].
  - destruct (position label rest) as [j|]; [|discriminate].
    injection H as <-. destruct (IH j eq_refl) as [Hj Hn]. split; [lia|].
    rewrite Z2Nat.inj_succ by assumption. exact Hn.
Qed.

Lemma position_complete (label : string) (labels : list string) :
  position label labels = None <-> ~ In label labels.
Proof.
  induction labels as [|l rest IH]; cbn.
  - split; [intros _ []|reflexivity].
  - destruct (String.eqb l label) eqn:E.
    + apply String.eqb_eq in E. split; [discriminate|]. intros H. exfalso. auto.
    + apply String.eqb_neq in E. destruct (position label rest).
      * split; [discriminate|]. intros H. exfalso. apply H. right.
        destruct IH as [_ IH]. destruct (in_dec string_dec label rest) as [i|n]; [exact i|].
        discriminate (IH n).
      * split; [|reflexivity]. intros _ [H|H]; [auto|]. now apply IH.
Qed.

(** On its own, [_convert_str_period_to_int] does resolve two labels to
    their offsets in the index. *)
Lemma _convert_str_period_to_int_offsets (d : DataFrame) (first last : string) (i j : loc) :
  get_loc (index d) first = OK i ->
  get_loc (index d) last = OK j ->
  _convert_str_period_to_int [first; last] d = OK [i; j].
Proof. intros Hi Hj. cbn. rewrite Hi, Hj. reflexivity. Qed.

(** A label for which [get_loc] raises [KeyError] is named in the error. *)
Lemma _convert_str_period_to_int_absent (d : DataFrame) (date key : string)
  (rest : list string) :
  get_loc (index d) date = Raise (KeyError key) ->
  _convert_str_period_to_int (date :: rest) d
  = Raise (ValueError (date ++ " is not preset in data index")).
Proof. intros H. cbn. rewrite H. reflexivity. Qed.

(** Claim C6.  Two date-like labels are not resolved to their offsets:
    [_process_period] raises on line 453, before line 463 can call
    [_convert_str_period_to_int], because a non-empty string tests true.
    This holds whether or not the index holds the labels. *)
Theorem C6_label_period_raises :
  forall (c0 c1 : ascii) (first last : string) (data_index : Index),
    _process_period (PyList [PyStr (String c0 first); PyStr (String c1 last)])
                    data_index
    = Raise (ValueError "Input period cannot have `None` values").
Proof.
  intros. apply truthy_left_stops; [reflexivity | eexists; reflexivity].
Qed.

Example label_period_2018 (labels : list string)
  (elsewhere : string -> result loc) :
  _process_period (PyList [PyStr "2018-01-01"; PyStr "2018-03-11"])
                  (DatetimeIndex ("2018-01-01" :: labels) elsewhere)
  = Raise (ValueError "Input period cannot have `None` values").
Proof. reflexivity. Qed.

(** Past line 453, line 463 would stop on the unbound name [data]. *)
Example empty_labels_reach_line_463 (labels : list string)
  (elsewhere : string -> result loc) :
  _process_period (PyList [PyStr EmptyString; PyStr EmptyString])
                  (DatetimeIndex labels elsewhere)
  = Raise (NameError "data").
Proof. reflexivity. Qed.

(** ** Splitting the data: [_process_pre_post_data] *)

Lemma _process_pre_post_data_never_returns (d : DataFrame) (pre post : pyobj) :
  is_OK (_process_pre_post_data d pre post) = false.
Proof.
  unfold _process_pre_post_data.
  pose proof (_process_period_never_returns pre (index d)) as H.
  destruct (_process_period pre (index d)); [discriminate|reflexivity].
Qed.

(** Lines 410-415 on resolved integer periods: an overlap is refused, a
    shared boundary is not. *)
Lemma check_and_slice_overlap (d : DataFrame) (a b c e : Z) :
  (c < b)%Z ->
  check_and_slice d (PyList [PyInt a; PyInt b]) (PyList [PyInt c; PyInt e])
  = Raise (ValueError
    "Values in training data cannot be present in the post-intervention data. Please fix your pre_period value to cover at most one point less from when the intervention happened.").
Proof.
  intros H. unfold check_and_slice. cbn.
  apply Z.ltb_lt in H. rewrite H. reflexivity.
Qed.

Lemma check_and_slice_post_reversed (d : DataFrame) (a b c e : Z) :
  (b <= c)%Z -> (e < c)%Z ->
  check_and_slice d (PyList [PyInt a; PyInt b]) (PyList [PyInt c; PyInt e])
  = Raise (ValueError "``post_period`` last number must be bigger than its first.").
Proof.
  intros H1 H2. unfold check_and_slice. cbn.
  replace (c <? b)%Z with false by (symmetry; apply Z.ltb_ge; lia).
  apply Z.ltb_lt in H2. cbn. rewrite H2. reflexivity.
Qed.

Lemma check_and_slice_pre_reversed (d : DataFrame) (a b c e : Z) :
  (b <= c)%Z -> (c <= e)%Z -> (b < a)%Z ->
  check_and_slice d (PyList [PyInt a; PyInt b]) (PyList [PyInt c; PyInt e])
  = Raise (ValueError "``pre_period`` last number must be bigger than its first").
Proof.
  intros H1 H2 H3. unfold check_and_slice. cbn.
  replace (c <? b)%Z with false by (symmetry; apply Z.ltb_ge; lia).
  replace (e <? c)%Z with false by (symmetry; apply Z.ltb_ge; lia).
  apply Z.ltb_lt in H3. cbn. rewrite H3. reflexivity.
Qed.

(** Claim C5.  On a frame of any size, [pre_period=[0,50]] with
    [post_period=[40,70]] does not fail with the overlap error of line 411,
    and [[0,70]] with [[70,100]] does not reach the overlap check: both
    calls stop in [_process_period] (line 407) on the error of line 453. *)
Theorem C5_overlap_check_not_reached :
  forall d : DataFrame,
    _process_pre_post_data d (PyList [PyInt 0; PyInt 50]) (PyList [PyInt 40; PyInt 70])
    = Raise (ValueError "Input period cannot have `None` values")
    /\ _process_pre_post_data d (PyList [PyInt 0; PyInt 70]) (PyList [PyInt 70; PyInt 100])
       = Raise (ValueError "Input period cannot have `None` values").
Proof. intros d. split; reflexivity. Qed.

End Period.

(** ** The default model: [_construct_default_model] *)

(** Claim C2.  No default model is constructed, local-level or other:
    for every instance [_construct_default_model] raises [NameError],
    the name [UnobservedComponentsModel] of line 207 being bound nowhere
    in main.py, and so does the assignment of [None] to [model], which
    calls it. *)
Theorem C2_default_model_raises_NameError :
  forall self : self_t,
    _construct_default_model self = Raise (NameError "UnobservedComponentsModel")
    /\ model_setter self PyNone = Raise (NameError "UnobservedComponentsModel").
Proof. intros self. split; reflexivity. Qed.

(** ** The significance level: [_process_alpha] *)

(** Claim C3, as it stands, fails: the bounds themselves are accepted, so
    an accepted [alpha] need not lie strictly between 0 and 1. *)
Lemma C3_open_interval_refuted :
  ~ (forall x : float,
       _process_alpha (PyFloat x) = OK PyNone ->
       PrimFloat.ltb 0 x = true /\ PrimFloat.ltb x 1 = true).
Proof.
  intros H. destruct (H 0%float eq_refl) as [H0 _].
  vm_compute in H0. discriminate H0.
Qed.

(** Claim C3, amended.  [_process_alpha] accepts [alpha] exactly when it
    is a float that is neither below 0 nor above 1, both bounds included;
    every other value raises a [ValueError].  So [-0.1] and [1.5] are
    refused as out of range, the integers [0] and [1] are refused as not
    being floats, and [0.05], [0.0] and [1.0] are accepted. *)
Theorem C3_alpha_closed_interval :
  (forall alpha : pyobj,
     _process_alpha alpha = OK PyNone <->
     exists x : float,
       alpha = PyFloat x /\ PrimFloat.ltb x 0 = false /\ PrimFloat.ltb 1 x = false)
  /\ (forall alpha : pyobj,
        is_OK (_process_alpha alpha) = false ->
        exists msg, _process_alpha alpha = Raise (ValueError msg))
  /\ _process_alpha (PyFloat (-0.1)) = Raise (ValueError
       "``alpha`` must range between 0 (zero) and 1 (one) inclusive.")
  /\ _process_alpha (PyFloat 1.5) = Raise (ValueError
       "``alpha`` must range between 0 (zero) and 1 (one) inclusive.")
  /\ _process_alpha (PyInt 0) = Raise (ValueError "``alpha`` must be of type `float`.")
  /\ _process_alpha (PyInt 1) = Raise (ValueError "``alpha`` must be of type `float`.")
  /\ _process_alpha (PyFloat 0.05) = OK PyNone
  /\ _process_alpha (PyFloat 0) = OK PyNone
  /\ _process_alpha (PyFloat 1) = OK PyNone.
Proof.
  split; [|split; [|repeat split]].
  - intros alpha. split.
    + destruct alpha; try discriminate. cbn.
      destruct (PrimFloat.ltb x 0) eqn:E0; [discriminate|].
      destruct (PrimFloat.ltb 1 x) eqn:E1; [discriminate|].
      intros _. exists x. auto.
    + intros (x & -> & E0 & E1). cbn. rewrite E0, E1. reflexivity.
  - intros alpha. destruct alpha; cbn; try (intros _; eexists; reflexivity).
    destruct (PrimFloat.ltb x 0 || PrimFloat.ltb 1 x)%bool;
      [intros _; eexists; reflexivity | discriminate].
Qed.

Lemma C3_alpha_closed_interval_witness :
  _process_alpha (PyFloat 0.05) = OK PyNone
  /\ exists msg, _process_alpha (PyFloat 1.5) = Raise (ValueError msg).
Proof.
  split.
  - apply (proj1 C3_alpha_closed_interval (PyFloat 0.05)).
    exists 0.05%float. repeat split; reflexivity.
  - apply (proj1 (proj2 C3_alpha_closed_interval) (PyFloat 1.5)). reflexivity.
Defined.

(** ** A user-supplied model: [_process_input_model] *)

(** Lines 308-323 on their own: a model that has its level and its
    regressors and lacks the attribute [data] is reported under the name
    [exog]. *)
Lemma missing_data_reported_as_exog (model level exog : pyobj) :
  getattr model "level" = OK level -> truthy level = OK true ->
  getattr model "exog" = OK exog -> truthy exog = OK true ->
  getattr model "data" = Raise (AttributeError "data") ->
  check_model_attributes model = Raise (ValueError "Model must have attribute exog").
Proof.
  intros Hl Htl He Hte Hd. unfold check_model_attributes.
  rewrite Hl, He, Hd. cbn. rewrite Htl, Hte. reflexivity.
Qed.

(** Claim C9.  No model gets an error that names the capability it lacks:
    for every model, complete or not, [_process_input_model] raises
    [NameError] on line 304, where the second argument of [isinstance] is
    the name [UnobservedComponentsModel], bound nowhere in main.py. *)
Theorem C9_every_model_raises_NameError :
  forall model : pyobj,
    _process_input_model model = Raise (NameError "UnobservedComponentsModel").
Proof. intros model. reflexivity. Qed.

(** ** Standardization *)

Lemma _standardize_pre_post_data_raises (ext : Externals) (self : self_t) :
  _standardize_pre_post_data self = Raise (NameError "normed_data").
Proof.
  unfold _standardize_pre_post_data.
  destruct (standardize (pre_data self)) as [normed [m s]]. reflexivity.
Qed.

Lemma posterior_locals_spec (ext : Externals) (self : self_t) :
  let L := _process_posterior_inferences_locals self in
  (normed_pre_data L, (mu L, sig L)) = standardize (pre_data self)
  /\ (normed_post_data L, post_mu_sig L) = standardize (post_data self).
Proof.
  unfold _process_posterior_inferences_locals.
  destruct (standardize (pre_data self)) as [n1 [m1 s1]].
  destruct (standardize (post_data self)) as [n2 p2]. cbn. auto.
Qed.

(** Claim C4.  Not every standardization step takes its parameters from
    the pre-period.  [_process_posterior_inferences] standardizes the
    post-period frame by a call of its own, so the frame is centred and
    scaled by the post-period mean and deviation; the one method that
    rescales the post-period by the pre-period parameters stops on line
    183 before it does.  On the sample data the pre-period means are 2 and
    5 and the post-period is centred on 20 and 50: its first value comes
    out negative, where the pre-period parameters put it above 9. *)
Theorem C4_post_period_standardized_on_its_own :
  (forall (ext : Externals) (self : self_t),
     let L := _process_posterior_inferences_locals self in
     normed_post_data L = fst (standardize (post_data self))
     /\ post_mu_sig L = snd (standardize (post_data self))
     /\ _standardize_pre_post_data self = Raise (NameError "normed_data"))
  /\ (let L := _process_posterior_inferences_locals
                 (ext := Reference.externals) Reference.sample_self in
      mu L = [Num 2; Num 5]
      /\ fst (post_mu_sig L) = [Num 20; Num 50]
      /\ option_map (fun v => PrimFloat.ltb v 0) (first_value (normed_post_data L))
         = Some true
      /\ exists by_pre : DataFrame,
           rescale Reference.post_frame (mu L) (sig L) = OK by_pre
           /\ option_map (PrimFloat.ltb 9) (first_value by_pre) = Some true).
Proof.
  split.
  - intros ext self L. subst L.
    destruct (posterior_locals_spec ext self) as [_ H]. cbn zeta in H.
    rewrite <- H. cbn. repeat split. apply _standardize_pre_post_data_raises.
  - cbv zeta. repeat split; try (vm_compute; reflexivity).
    eexists. split; vm_compute; reflexivity.
Qed.

(** ** The data: [_format_input_data] *)

Lemma _format_input_data_accepts (ext : Externals) (d : DataFrame) :
  applymap_all np_isreal d = true ->
  (3 <= shape0 d)%nat ->
  isna_values_all d = false ->
  _format_input_data (PyFrame d) = OK d.
Proof.
  intros Hreal Hrows Hna. unfold _format_input_data, bind.
  rewrite Hreal, Hna. cbv [negb].
  destruct (shape0 d <? 3)%nat eqn:E; [apply Nat.ltb_lt in E; lia|].
  destruct (1 <? shape1 d)%nat; reflexivity.
Qed.

(** The error of line 386 is raised only when every cell of the frame is
    missing, the response included. *)
Lemma _format_input_data_NAN_error (ext : Externals) (d : DataFrame) :
  _format_input_data (PyFrame d)
  = Raise (ValueError "Input data cannot have NAN values")
  <-> applymap_all np_isreal d = true /\ (3 <= shape0 d)%nat
      /\ (1 < shape1 d)%nat /\ isna_values_all d = true.
Proof.
  unfold _format_input_data, bind.
  destruct (applymap_all np_isreal d); cbv [negb].
  2: { split; [discriminate | intros [H _]; discriminate H]. }
  destruct (shape0 d <? 3)%nat eqn:Hrows.
  { apply Nat.ltb_lt in Hrows. split; [discriminate | intros (_ & H & _); lia]. }
  apply Nat.ltb_ge in Hrows.
  destruct (1 <? shape1 d)%nat eqn:Hcols.
  - apply Nat.ltb_lt in Hcols. destruct (isna_values_all d).
    + split; auto.
    + split; [discriminate | intros (_ & _ & _ & H); discriminate H].
  - apply Nat.ltb_ge in Hcols. split; [discriminate | intros (_ & _ & H & _); lia].
Qed.

(** Claim C7.  A covariate column that is missing throughout does not make
    validation fail: with a valid response, alone or beside a valid
    covariate, the frame is returned as it came.  Line 385 asks whether
    every cell of the whole frame is missing, and only then raises. *)
Theorem C7_missing_covariate_accepted :
  forall ext : Externals,
    _format_input_data (PyFrame Reference.missing_covariate_frame)
    = OK Reference.missing_covariate_frame
    /\ _format_input_data (PyFrame Reference.one_missing_covariate_frame)
       = OK Reference.one_missing_covariate_frame
    /\ _format_input_data (PyFrame Reference.all_missing_frame)
       = Raise (ValueError "Input data cannot have NAN values").
Proof. intros ext. repeat split. Qed.

(** ** Checking the arguments: [_check_input_data] *)

Lemma _check_input_data_never_returns (ext : Externals)
  (self data pre_period post_period model alpha : pyobj)
  (kwargs : list (string * pyobj)) :
  is_OK (_check_input_data self data pre_period post_period model alpha kwargs)
  = false.
Proof.
  unfold _check_input_data. cbn.
  match goal with |- context [nonempty ?l] => destruct (nonempty l) end;
    [reflexivity|].
  destruct (_format_input_data data) as [d|e]; [|reflexivity]. cbn.
  pose proof (_process_pre_post_data_never_returns d pre_period post_period) as H.
  destruct (_process_pre_post_data d pre_period post_period); [discriminate|].
  reflexivity.
Qed.

(** The value of [alpha] plays no part in [_check_input_data] beyond not
    being [None]: [_process_alpha] is not called. *)
Lemma _check_input_data_ignores_alpha (ext : Externals)
  (self data pre_period post_period model alpha alpha' : pyobj)
  (kwargs : list (string * pyobj)) :
  is_None alpha = false -> is_None alpha' = false ->
  _check_input_data self data pre_period post_period model alpha kwargs
  = _check_input_data self data pre_period post_period model alpha' kwargs.
Proof.
  intros H H'. unfold _check_input_data, none_args_of. cbn.
  rewrite H, H'.
  match goal with |- context [nonempty ?l] => destruct (nonempty l) end;
    [reflexivity|].
  destruct (_format_input_data data) as [d|e]; [|reflexivity]. cbn.
  pose proof (_process_pre_post_data_never_returns d pre_period post_period) as N.
  destruct (_process_pre_post_data d pre_period post_period); [discriminate|].
  reflexivity.
Qed.

Lemma __init___never_returns (ext : Externals)
  (data pre_period post_period model alpha : pyobj)
  (kwargs : list (string * pyobj)) :
  is_OK (__init__ data pre_period post_period model alpha kwargs) = false.
Proof.
  unfold __init__.
  pose proof (_check_input_data_never_returns ext (PyInstance "CausalImpact" [])
                data pre_period post_period model alpha kwargs) as H.
  destruct (_check_input_data _ data pre_period post_period model alpha kwargs);
    [discriminate|reflexivity].
Qed.



(** ** Further properties *)

(** Whatever the period and the index, [_process_period] raises: it has no
    input on which it returns. *)
Theorem period_resolution_always_raises :
  forall (period : pyobj) (data_index : Index),
  exists e : exn, _process_period period data_index = Raise e.
Proof.
  intros period data_index.
  pose proof (_process_period_never_returns period data_index) as H.
  destruct (_process_period period data_index) as [r|e];
    [discriminate | exists e; reflexivity].
Qed.

(** Whatever the arguments, [__init__] raises: no analysis is constructed,
    and the model is never trained. *)
Theorem construction_always_raises :
  forall (ext : Externals) (data pre_period post_period model alpha : pyobj)
         (kwargs : list (string * pyobj)),
  exists e : exn,
    __init__ data pre_period post_period model alpha kwargs = Raise e.
Proof.
  intros ext d pre post model a kwargs.
  pose proof (__init___never_returns ext d pre post model a kwargs) as H.
  destruct (__init__ d pre post model a kwargs) as [r|e];
    [discriminate | exists e; reflexivity].
Qed.

(** Setting [model_args] with standardization switched on raises the
    [NameError] of line 183 and leaves the instance as it was; with
    standardization off or absent it only stores the options. *)
Theorem model_args_setter_standardize :
  forall (ext : Externals) (self : self_t),
    model_args_setter self (PyDict [("standardize", PyBool true)])
    = Raise (NameError "normed_data")
    /\ model_args_setter self (PyDict [("standardize", PyBool false)])
       = OK (set__model_args self (PyDict [("standardize", PyBool false)]))
    /\ model_args_setter self (PyDict []) = OK (set__model_args self (PyDict [])).
Proof.
  intros ext self. split; [|split; reflexivity].
  unfold model_args_setter. cbn.
  rewrite _standardize_pre_post_data_raises. reflexivity.
Qed.

(** [_process_kwargs]: without the option, standardization is off; a
    boolean option is kept. *)
Theorem _process_kwargs_defaults :
  _process_kwargs [] = OK (PyDict [("standardize", PyBool false)])
  /\ (forall b : bool,
        _process_kwargs [("standardize", PyBool b)]
        = OK (PyDict [("standardize", PyBool b)])).
Proof. split; reflexivity. Qed.

(** An option that is not a boolean reaches the unbound name
    [ValueException] of line 346. *)
Lemma _process_kwargs_not_bool :
  (forall z : Z,
     _process_kwargs [("standardize", PyInt z)] = Raise (NameError "ValueException"))
  /\ (forall s : string,
        _process_kwargs [("standardize", PyStr s)] = Raise (NameError "ValueException")).
Proof. split; reflexivity. Qed.

(** Lines 410-419 on resolved integer periods: an overlap raises the error
    of line 411; without overlap a reversed post-period raises the error of
    line 417; with neither, a reversed pre-period raises the error of line
    419; a pre-period that ends where the post-period starts, or before,
    does not raise the error of line 411. *)
Theorem resolved_periods_checks :
  forall (d : DataFrame) (a b c e : Z),
    ((c < b)%Z ->
       check_and_slice d (PyList [PyInt a; PyInt b]) (PyList [PyInt c; PyInt e])
       = Raise (ValueError
         "Values in training data cannot be present in the post-intervention data. Please fix your pre_period value to cover at most one point less from when the intervention happened."))
    /\ ((b <= c)%Z -> (e < c)%Z ->
          check_and_slice d (PyList [PyInt a; PyInt b]) (PyList [PyInt c; PyInt e])
          = Raise (ValueError "``post_period`` last number must be bigger than its first."))
    /\ ((b <= c)%Z -> (c <= e)%Z -> (b < a)%Z ->
          check_and_slice d (PyList [PyInt a; PyInt b]) (PyList [PyInt c; PyInt e])
          = Raise (ValueError "``pre_period`` last number must be bigger than its first"))
    /\ ((b <= c)%Z ->
          check_and_slice d (PyList [PyInt a; PyInt b]) (PyList [PyInt c; PyInt e])
          <> Raise (ValueError
            "Values in training data cannot be present in the post-intervention data. Please fix your pre_period value to cover at most one point less from when the intervention happened.")).
Proof.
  intros d a b c e. split; [|split; [|split]].
  - apply check_and_slice_overlap.
  - apply check_and_slice_post_reversed.
  - apply check_and_slice_pre_reversed.
  - intros H. unfold check_and_slice. cbn.
    replace (c <? b)%Z with false by (symmetry; apply Z.ltb_ge; lia).
    destruct (e <? c)%Z; [discriminate|].
    destruct (b <? a)%Z; discriminate.
Qed.

Lemma resolved_periods_checks_witness :
  check_and_slice Reference.pre_frame (PyList [PyInt 0; PyInt 50])
                  (PyList [PyInt 40; PyInt 70])
  = Raise (ValueError
      "Values in training data cannot be present in the post-intervention data. Please fix your pre_period value to cover at most one point less from when the intervention happened.")
  /\ check_and_slice Reference.pre_frame (PyList [PyInt 0; PyInt 70])
                     (PyList [PyInt 70; PyInt 100])
     <> Raise (ValueError
      "Values in training data cannot be present in the post-intervention data. Please fix your pre_period value to cover at most one point less from when the intervention happened.")
  /\ check_and_slice Reference.pre_frame (PyList [PyInt 0; PyInt 70])
                     (PyList [PyInt 70; PyInt 60])
     = Raise (ValueError "``post_period`` last number must be bigger than its first.")
  /\ check_and_slice Reference.pre_frame (PyList [PyInt 70; PyInt 10])
                     (PyList [PyInt 70; PyInt 100])
     = Raise (ValueError "``pre_period`` last number must be bigger than its first").
Proof.
  split; [|split; [|split]].
  - apply (proj1 (resolved_periods_checks Reference.pre_frame 0 50 40 70)). lia.
  - apply (proj2 (proj2 (proj2 (resolved_periods_checks Reference.pre_frame
                                  0 70 70 100)))); lia.
  - apply (proj1 (proj2 (resolved_periods_checks Reference.pre_frame
                           0 70 70 60))); lia.
  - apply (proj1 (proj2 (proj2 (resolved_periods_checks Reference.pre_frame
                                  70 10 70 100)))); lia.
Defined.

(** [_convert_str_period_to_int], called on its own with two labels.  When
    [get_loc] finds both, it returns the two answers in their order: for
    labels spelled as the index keeps them these are their offsets, at
    which the index holds them.  When [get_loc] raises [KeyError] for the
    first label, or finds the first and raises [KeyError] for the second,
    it raises a [ValueError] that names that label. *)
Theorem _convert_str_period_to_int_spec :
  forall (d : DataFrame) (first last : string),
    (forall i j : loc,
       get_loc (index d) first = OK i -> get_loc (index d) last = OK j ->
       _convert_str_period_to_int [first; last] d = OK [i; j])
    /\ (forall (labels : list string) (elsewhere : string -> result loc) (i j : Z),
          index d = DatetimeIndex labels elsewhere ->
          position first labels = Some i -> position last labels = Some j ->
          _convert_str_period_to_int [first; last] d = OK [At i; At j]
          /\ nth_error labels (Z.to_nat i) = Some first
          /\ nth_error labels (Z.to_nat j) = Some last)
    /\ (forall key : string,
          get_loc (index d) first = Raise (KeyError key) ->
          _convert_str_period_to_int [first; last] d
          = Raise (ValueError (first ++ " is not preset in data index")))
    /\ (forall (i : loc) (key : string),
          get_loc (index d) first = OK i ->
          get_loc (index d) last = Raise (KeyError key) ->
          _convert_str_period_to_int [first; last] d
          = Raise (ValueError (last ++ " is not preset in data index"))).
Proof.
  intros d first last. split; [|split; [|split]].
  - intros i j. apply _convert_str_period_to_int_offsets.
  - intros labels elsewhere i j Hidx Hi Hj. split; [|split].
    + apply _convert_str_period_to_int_offsets; rewrite Hidx; cbn;
        [rewrite Hi | rewrite Hj]; reflexivity.
    + apply (position_sound _ _ _ Hi).
    + apply (position_sound _ _ _ Hj).
  - intros key H. eapply _convert_str_period_to_int_absent. exact H.
  - intros i key Hi Hj. cbn. rewrite Hi, Hj. reflexivity.
Qed.

Lemma _convert_str_period_to_int_spec_witness :
  _convert_str_period_to_int ["2018-01-02"; "20180104"]
    (mkFrame Reference.january [])
  = OK [At 1; At 3]
  /\ _convert_str_period_to_int ["2018-02-01"; "2018-01-04"]
       (mkFrame Reference.january [])
     = Raise (ValueError "2018-02-01 is not preset in data index")
  /\ _convert_str_period_to_int ["2018-01"; "2018-03-11"]
       (mkFrame Reference.january [])
     = Raise (ValueError "2018-03-11 is not preset in data index").
Proof.
  split; [|split].
  - apply (proj1 (_convert_str_period_to_int_spec (mkFrame Reference.january [])
                    "2018-01-02" "20180104")); reflexivity.
  - apply (proj1 (proj2 (proj2 (_convert_str_period_to_int_spec
                    (mkFrame Reference.january []) "2018-02-01" "2018-01-04")))
                 "2018-02-01").
    reflexivity.
  - apply (proj2 (proj2 (proj2 (_convert_str_period_to_int_spec
                    (mkFrame Reference.january []) "2018-01" "2018-03-11")))
                 (Span 0 4) "2018-03-11"); reflexivity.
Defined.

Lemma _check_input_data_ignores_alpha_witness :
  _check_input_data (ext := Reference.externals) (PyInstance "CausalImpact" [])
    (PyFrame Reference.pre_frame) (PyList [PyInt 0; PyInt 70])
    (PyList [PyInt 70; PyInt 100]) PyNone (PyFloat 0.05) []
  = _check_input_data (ext := Reference.externals) (PyInstance "CausalImpact" [])
      (PyFrame Reference.pre_frame) (PyList [PyInt 0; PyInt 70])
      (PyList [PyInt 70; PyInt 100]) PyNone (PyFloat 1.5) [].
Proof.
  apply (_check_input_data_ignores_alpha Reference.externals); reflexivity.
Defined.

Lemma _format_input_data_NAN_error_witness :
  _format_input_data (ext := Reference.externals) (PyFrame Reference.all_missing_frame)
  = Raise (ValueError "Input data cannot have NAN values").
Proof.
  apply (proj2 (_format_input_data_NAN_error Reference.externals
                  Reference.all_missing_frame)).
  repeat split; try reflexivity; unfold shape0, shape1; simpl; lia.
Defined.

(** [_format_input_data] on a frame: an entry that is not a real number is
    refused; with real entries only, fewer than 3 rows are refused. *)
Theorem _format_input_data_refusals :
  forall (ext : Externals) (d : DataFrame),
    (applymap_all np_isreal d = false ->
     _format_input_data (PyFrame d)
     = Raise (ValueError "Input ``data`` must contain only numeric values"))
    /\ (applymap_all np_isreal d = true -> (shape0 d < 3)%nat ->
        _format_input_data (PyFrame d)
        = Raise (ValueError "Input data must have more than 3 points")).
Proof.
  intros ext d. split.
  - intros H. unfold _format_input_data, bind. rewrite H. reflexivity.
  - intros H Hrows. unfold _format_input_data, bind. rewrite H. cbv [negb].
    apply Nat.ltb_lt in Hrows. rewrite Hrows. reflexivity.
Qed.

Lemma _format_input_data_refusals_witness :
  _format_input_data (ext := Reference.externals)
    (PyFrame (mkFrame (RangeIndex 3) [[Num 1; Other "a"; Num 3]]))
  = Raise (ValueError "Input ``data`` must contain only numeric values")
  /\ _format_input_data (ext := Reference.externals)
       (PyFrame (mkFrame (RangeIndex 2) [[Num 1; Num 2]]))
     = Raise (ValueError "Input data must have more than 3 points").
Proof.
  split.
  - apply (proj1 (_format_input_data_refusals Reference.externals
                    (mkFrame (RangeIndex 3) [[Num 1; Other "a"; Num 3]]))).
    reflexivity.
  - apply (proj2 (_format_input_data_refusals Reference.externals
                    (mkFrame (RangeIndex 2) [[Num 1; Num 2]]))).
    + reflexivity.
    + unfold shape0; simpl; lia.
Defined.

(** The setter of [model] stores a model that is not [None] as it is. *)
Theorem model_setter_keeps_user_model :
  forall (self : self_t) (cls : string) (attrs : list (string * pyobj)),
    model_setter self (PyInstance cls attrs)
    = OK (set__model self (PyInstance cls attrs)).
Proof. reflexivity. Qed.

(** ** Each method in turn *)

(** Case analysis on the computation that a [bind] of the goal waits for. *)
Ltac step_bind :=
  match goal with
  | |- context [bind ?m _] =>
      lazymatch m with
      | OK _ => fail
      | Raise _ => fail
      | _ => destruct m eqn:?
      end
  end.

(** *** [_process_period], by the shape of the period *)

(** What is not a list, and a list that has not two elements, is refused
    with the error of its own (lines 444-450). *)
Theorem _process_period_shape_errors :
  forall (period : pyobj) (data_index : Index),
    match period with
    | PyList items =>
        List.length items <> 2%nat ->
        _process_period period data_index
        = Raise (ValueError
            "``period`` must have two values regarding the beginning and end of the pre and post intervention data")
    | _ =>
        _process_period period data_index
        = Raise (ValueError "Input ``period`` must be of type `list`.")
    end.
Proof.
  intros period data_index. destruct period; try reflexivity.
  intros H. unfold _process_period.
  destruct (List.length items =? 2)%nat eqn:E; [|reflexivity].
  apply Nat.eqb_eq in E. contradiction.
Qed.

Lemma _process_period_shape_errors_witness :
  _process_period (PyList [PyInt 0; PyInt 70; PyInt 100]) (RangeIndex 100)
  = Raise (ValueError
      "``period`` must have two values regarding the beginning and end of the pre and post intervention data")
  /\ _process_period (PyInt 70) (RangeIndex 100)
     = Raise (ValueError "Input ``period`` must be of type `list`.").
Proof.
  split.
  - apply (_process_period_shape_errors (PyList [PyInt 0; PyInt 70; PyInt 100])
             (RangeIndex 100)).
    simpl. discriminate.
  - exact (_process_period_shape_errors (PyInt 70) (RangeIndex 100)).
Defined.

(** Two integers: the one pair that passes line 453 is [[0, 0]], which is
    too short; every other pair gets the error written for [None]
    elements. *)
Theorem _process_period_on_integers :
  forall (a b : Z) (data_index : Index),
    _process_period (PyList [PyInt a; PyInt b]) data_index
    = Raise (ValueError
        (if ((a =? 0)%Z && (b =? 0)%Z)%bool
         then "``pre_period`` must span at least 3 time points"
         else "Input period cannot have `None` values")).
Proof.
  intros a b data_index.
  destruct a, b; reflexivity.
Qed.

(** [None] elements are not the ones that line 453 reports: they pass it,
    and a pair with a [None] in it is refused as not being of type [int]
    or [str], unless its other element is a non-zero integer, which gets
    the error written for [None]. *)
Theorem _process_period_on_None :
  forall (data_index : Index),
    _process_period (PyList [PyNone; PyNone]) data_index
    = Raise (ValueError "Input must contain either `int` or `str`")
    /\ (forall a : Z,
          _process_period (PyList [PyNone; PyInt a]) data_index
          = Raise (ValueError
              (if (a =? 0)%Z
               then "Input must contain either `int` or `str`"
               else "Input period cannot have `None` values"))
          /\ _process_period (PyList [PyInt a; PyNone]) data_index
             = Raise (ValueError
                 (if (a =? 0)%Z
                  then "Input must contain either `int` or `str`"
                  else "Input period cannot have `None` values"))).
Proof.
  intros data_index. split; [reflexivity|].
  intros a. destruct a; split; reflexivity.
Qed.

(** Two strings: unless both are empty they get the error written for
    [None]; two empty strings reach line 462, where an index that is not
    a [DatetimeIndex] is refused and a [DatetimeIndex] leads to the
    unbound name of line 463. *)
Theorem _process_period_on_strings :
  forall (s t : string) (data_index : Index),
    _process_period (PyList [PyStr s; PyStr t]) data_index
    = Raise
        match s, t with
        | EmptyString, EmptyString =>
            if isinstance_DatetimeIndex data_index
            then NameError "data"
            else ValueError
              "If input ``period`` is string then input ``data`` must have index of type `DatetimeIndex`."
        | _, _ => ValueError "Input period cannot have `None` values"
        end.
Proof.
  intros s t data_index.
  destruct s, t, data_index; reflexivity.
Qed.

(** *** [_process_pre_post_data] *)

Lemma pre_period_decides (d : DataFrame) (pre_period post_period : pyobj) :
  exists e : exn,
    _process_period pre_period (index d) = Raise e
    /\ _process_pre_post_data d pre_period post_period = Raise e.
Proof.
  pose proof (_process_period_never_returns pre_period (index d)) as H.
  unfold _process_pre_post_data.
  destruct (_process_period pre_period (index d)) as [r|e]; [discriminate|].
  exists e. split; reflexivity.
Qed.

(** [_process_pre_post_data] ends where the resolution of [pre_period]
    ends, with the same exception: [post_period] is not looked at, so any
    other [post_period] gives the same outcome, and neither are the rows
    of the data. *)
Theorem _process_pre_post_data_stops_at_pre_period :
  forall (d : DataFrame) (pre_period post_period : pyobj),
  exists e : exn,
    _process_period pre_period (index d) = Raise e
    /\ _process_pre_post_data d pre_period post_period = Raise e
    /\ (forall post_period' : pyobj,
          _process_pre_post_data d pre_period post_period' = Raise e)
    /\ (forall cols : list Series,
          _process_pre_post_data (mkFrame (index d) cols) pre_period post_period
          = Raise e).
Proof.
  intros d pre post.
  destruct (pre_period_decides d pre post) as (e & He & Hd).
  exists e. split; [exact He|]. split; [exact Hd|]. split.
  - intros post'. destruct (pre_period_decides d pre post') as (e' & He' & Hd').
    rewrite Hd'. congruence.
  - intros cols.
    destruct (pre_period_decides (mkFrame (index d) cols) pre post)
      as (e' & He' & Hd').
    cbn in He'. rewrite Hd'. congruence.
Qed.

(** Lines 410-424 return no pair of slices, whatever the two periods: when
    the three comparisons pass, as they do for integer periods in order,
    [iloc] is given three indexers for a frame of two dimensions. *)
Theorem check_and_slice_never_returns :
  forall (d : DataFrame) (pre_period post_period : pyobj),
    (exists e : exn, check_and_slice d pre_period post_period = Raise e)
    /\ (forall a b c e : Z,
          pre_period = PyList [PyInt a; PyInt b] ->
          post_period = PyList [PyInt c; PyInt e] ->
          (a <= b)%Z -> (b <= c)%Z -> (c <= e)%Z ->
          check_and_slice d pre_period post_period
          = Raise (IndexingError "Too many indexers")).
Proof.
  intros d pre post. split.
  - unfold check_and_slice, iloc3.
    repeat (first [ step_bind
                  | match goal with
                    | |- context [if ?b then _ else _] => destruct b
                    end ];
            cbn [bind]);
      eexists; reflexivity.
  - intros a b c e -> -> H1 H2 H3. unfold check_and_slice. cbn.
    replace (c <? b)%Z with false by (symmetry; apply Z.ltb_ge; lia).
    replace (e <? c)%Z with false by (symmetry; apply Z.ltb_ge; lia).
    replace (b <? a)%Z with false by (symmetry; apply Z.ltb_ge; lia).
    reflexivity.
Qed.

Lemma check_and_slice_never_returns_witness :
  check_and_slice Reference.pre_frame (PyList [PyInt 0; PyInt 70])
                  (PyList [PyInt 70; PyInt 100])
  = Raise (IndexingError "Too many indexers").
Proof.
  apply (proj2 (check_and_slice_never_returns Reference.pre_frame
                  (PyList [PyInt 0; PyInt 70]) (PyList [PyInt 70; PyInt 100]))
               0%Z 70%Z 70%Z 100%Z); try reflexivity; lia.
Defined.

(** *** [_check_input_data] and [__init__] *)

(** With no argument [None], [_check_input_data] fails in one of two
    places: in [_format_input_data], with its exception, or else in the
    resolution of [pre_period] against the index of the formatted data,
    with that exception. *)
Theorem _check_input_data_precedence :
  forall (ext : Externals) (cls : string) (attrs : list (string * pyobj))
         (data pre_period post_period model alpha : pyobj)
         (kwargs : list (string * pyobj)),
    none_args_of [("data", data); ("pre_period", pre_period);
                  ("post_period", post_period); ("alpha", alpha)] = [] ->
    (forall e : exn,
       _format_input_data data = Raise e ->
       _check_input_data (PyInstance cls attrs) data pre_period post_period
                         model alpha kwargs = Raise e)
    /\ (forall d : DataFrame,
          _format_input_data data = OK d ->
          exists e : exn,
            _process_period pre_period (index d) = Raise e
            /\ _check_input_data (PyInstance cls attrs) data pre_period
                                 post_period model alpha kwargs = Raise e).
Proof.
  intros ext cls attrs data pre post model alpha kwargs.
  unfold _check_input_data, none_args_of. cbn.
  destruct (is_None data), (is_None pre), (is_None post), (is_None alpha);
    cbn; try discriminate.
  intros _. split.
  - intros e H. rewrite H. reflexivity.
  - intros d H. rewrite H. cbn.
    destruct (pre_period_decides d pre post) as (e & H1 & H2).
    exists e. split; [exact H1|]. rewrite H2. reflexivity.
Qed.

Lemma _check_input_data_precedence_witness :
  _check_input_data (ext := Reference.externals) (PyInstance "CausalImpact" [])
    (PyInt 5) (PyList [PyInt 0; PyInt 70]) (PyList [PyInt 70; PyInt 100])
    PyNone (PyFloat 0.05) []
  = Raise (ValueError
      "Input ``data`` is not valid. Cause of error: DataFrame constructor not properly called!")
  /\ exists e : exn,
       _process_period (PyList [PyInt 0; PyInt 70]) (index Reference.pre_frame)
       = Raise e
       /\ _check_input_data (ext := Reference.externals)
            (PyInstance "CausalImpact" []) (PyFrame Reference.pre_frame)
            (PyList [PyInt 0; PyInt 70]) (PyList [PyInt 70; PyInt 100])
            PyNone (PyFloat 0.05) [] = Raise e.
Proof.
  split.
  - apply (proj1 (_check_input_data_precedence Reference.externals
                    "CausalImpact" [] (PyInt 5) (PyList [PyInt 0; PyInt 70])
                    (PyList [PyInt 70; PyInt 100]) PyNone (PyFloat 0.05) []
                    eq_refl)).
    reflexivity.
  - apply (proj2 (_check_input_data_precedence Reference.externals
                    "CausalImpact" [] (PyFrame Reference.pre_frame)
                    (PyList [PyInt 0; PyInt 70]) (PyList [PyInt 70; PyInt 100])
                    PyNone (PyFloat 0.05) [] eq_refl)).
    reflexivity.
Defined.

(** The outcome of [_check_input_data] rests on [data], on [pre_period]
    and on which of [post_period] and [alpha] are [None], and on nothing
    else: not on the content of [post_period], not on the value of
    [alpha], not on the model and not on the options. *)
Theorem _check_input_data_depends_on :
  forall (ext : Externals) (cls cls' : string) (attrs attrs' : list (string * pyobj))
         (data pre_period post_period post_period' model model' alpha alpha' : pyobj)
         (kwargs kwargs' : list (string * pyobj)),
    is_None post_period = is_None post_period' ->
    is_None alpha = is_None alpha' ->
    _check_input_data (PyInstance cls attrs) data pre_period post_period
                      model alpha kwargs
    = _check_input_data (PyInstance cls' attrs') data pre_period post_period'
                        model' alpha' kwargs'.
Proof.
  intros ext cls cls' attrs attrs' data pre post post' model model' alpha alpha'
         kwargs kwargs' Hp Ha.
  unfold _check_input_data, none_args_of. cbn.
  rewrite <- Hp, <- Ha.
  destruct (is_None data), (is_None pre), (is_None post), (is_None alpha);
    cbn; try reflexivity.
  destruct (_format_input_data data) as [d|e]; [|reflexivity]. cbn.
  destruct (pre_period_decides d pre post) as (e & H1 & H).
  destruct (pre_period_decides d pre post') as (e' & H2 & H').
  rewrite H, H'. cbn. congruence.
Qed.

Lemma _check_input_data_depends_on_witness :
  _check_input_data (ext := Reference.externals) (PyInstance "CausalImpact" [])
    (PyFrame Reference.pre_frame) (PyList [PyInt 0; PyInt 70])
    (PyList [PyInt 70; PyInt 100]) PyNone (PyFloat 0.05) []
  = _check_input_data (ext := Reference.externals) (PyInstance "CausalImpact" [])
      (PyFrame Reference.pre_frame) (PyList [PyInt 0; PyInt 70])
      (PyStr "never") (PyInt 7) (PyFloat 1.5) [("standardize", PyInt 3)].
Proof.
  apply (_check_input_data_depends_on Reference.externals); reflexivity.
Defined.

(** [__init__] raises what [_check_input_data] raises, for every input;
    and two environments that agree on [pd.DataFrame] give the same
    outcome, so that neither [standardize], nor the model's [train], nor
    the two methods of the base class have any part in it. *)
Theorem __init___stops_in_check_input_data :
  forall (data pre_period post_period model alpha : pyobj)
         (kwargs : list (string * pyobj)),
    (forall ext : Externals,
     exists e : exn,
       _check_input_data (PyInstance "CausalImpact" []) data pre_period
                         post_period model alpha kwargs = Raise e
       /\ __init__ data pre_period post_period model alpha kwargs = Raise e)
    /\ (forall ext ext' : Externals,
          (forall o : pyobj, @pd_DataFrame ext o = @pd_DataFrame ext' o) ->
          @__init__ ext data pre_period post_period model alpha kwargs
          = @__init__ ext' data pre_period post_period model alpha kwargs).
Proof.
  intros d pre post model a kwargs.
  assert (Hstop : forall ext : Externals,
            exists e : exn,
              _check_input_data (PyInstance "CausalImpact" []) d pre post model
                                a kwargs = Raise e
              /\ __init__ d pre post model a kwargs = Raise e).
  { intros ext.
    pose proof (_check_input_data_never_returns ext (PyInstance "CausalImpact" [])
                  d pre post model a kwargs) as H.
    unfold __init__.
    destruct (_check_input_data (PyInstance "CausalImpact" []) d pre post model a
                                kwargs) as [r|e]; [discriminate|].
    exists e. split; reflexivity. }
  split; [exact Hstop|].
  intros ext ext' Hpd.
  assert (Hc : @_check_input_data ext (PyInstance "CausalImpact" []) d pre post
                 model a kwargs
               = @_check_input_data ext' (PyInstance "CausalImpact" []) d pre post
                   model a kwargs).
  { assert (Hf : @_format_input_data ext d = @_format_input_data ext' d).
    { unfold _format_input_data. destruct d; try rewrite Hpd; reflexivity. }
    unfold _check_input_data, none_args_of. cbn.
    destruct (is_None d), (is_None pre), (is_None post), (is_None a);
      cbn; try reflexivity.
    rewrite Hf.
    destruct (@_format_input_data ext' d) as [f|x]; [|reflexivity]. cbn.
    destruct (pre_period_decides f pre post) as (x & _ & H).
    rewrite H. reflexivity. }
  destruct (Hstop ext) as (e & He & Hi).
  destruct (Hstop ext') as (e' & He' & Hi').
  rewrite He, He' in Hc. injection Hc as <-.
  rewrite Hi, Hi'. reflexivity.
Qed.

Lemma __init___stops_in_check_input_data_witness :
  @__init__ Reference.externals (PyArray (columns Reference.pre_frame))
    (PyList [PyInt 0; PyInt 70]) (PyList [PyInt 70; PyInt 100]) PyNone
    (PyFloat 0.05) [("standardize", PyBool true)]
  = @__init__ Reference.other_externals (PyArray (columns Reference.pre_frame))
      (PyList [PyInt 0; PyInt 70]) (PyList [PyInt 70; PyInt 100]) PyNone
      (PyFloat 0.05) [("standardize", PyBool true)].
Proof.
  apply (proj2 (__init___stops_in_check_input_data
                  (PyArray (columns Reference.pre_frame))
                  (PyList [PyInt 0; PyInt 70]) (PyList [PyInt 70; PyInt 100])
                  PyNone (PyFloat 0.05) [("standardize", PyBool true)])
               Reference.externals Reference.other_externals).
  reflexivity.
Defined.

(** *** [_format_input_data] *)

(** On a frame, [_format_input_data] either raises or returns the frame it
    was given, unchanged; it returns exactly when every entry is a real
    number, there are at least 3 rows, and the frame has a single column
    or some entry that is not missing. *)
Theorem _format_input_data_returns_iff :
  forall (ext : Externals) (d d' : DataFrame),
    _format_input_data (PyFrame d) = OK d'
    <-> d' = d /\ applymap_all np_isreal d = true /\ (3 <= shape0 d)%nat
        /\ ((shape1 d <= 1)%nat \/ isna_values_all d = false).
Proof.
  intros ext d d'. unfold _format_input_data, bind.
  destruct (applymap_all np_isreal d); cbv [negb].
  2: { split; [discriminate | intros (_ & H & _); discriminate H]. }
  destruct (shape0 d <? 3)%nat eqn:Hrows.
  { apply Nat.ltb_lt in Hrows. split; [discriminate | intros (_ & _ & H & _); lia]. }
  apply Nat.ltb_ge in Hrows.
  destruct (1 <? shape1 d)%nat eqn:Hcols.
  - apply Nat.ltb_lt in Hcols. destruct (isna_values_all d).
    + split; [discriminate|]. intros (_ & _ & _ & [H|H]); [lia | discriminate H].
    + split; [intros [= <-] | intros (-> & _)]; auto.
  - apply Nat.ltb_ge in Hcols.
    split; [intros [= <-] | intros (-> & _)]; auto.
Qed.

Lemma _format_input_data_returns_iff_witness :
  _format_input_data (ext := Reference.externals)
    (PyFrame (mkFrame (RangeIndex 3)
                [[Num PrimFloat.nan; Num PrimFloat.nan; Num PrimFloat.nan]]))
  = OK (mkFrame (RangeIndex 3)
          [[Num PrimFloat.nan; Num PrimFloat.nan; Num PrimFloat.nan]]).
Proof.
  apply (proj2 (_format_input_data_returns_iff Reference.externals _ _)).
  split; [reflexivity|]. split; [reflexivity|]. split.
  - unfold shape0; simpl; lia.
  - left. unfold shape1; simpl; lia.
Defined.

(** On data that is not a frame, [_format_input_data] goes through
    [pd.DataFrame]: a [ValueError] of the conversion comes back as a
    [ValueError] that quotes it, any other exception comes back as it is,
    and a converted frame is checked as a frame given directly is. *)
Theorem _format_input_data_conversion :
  forall (ext : Externals) (data : pyobj),
    (forall d : DataFrame, data <> PyFrame d) ->
    (forall err : string,
       pd_DataFrame data = Raise (ValueError err) ->
       _format_input_data data
       = Raise (ValueError ("Input ``data`` is not valid. Cause of error: " ++ err)))
    /\ (forall e : exn,
          pd_DataFrame data = Raise e ->
          (forall err : string, e <> ValueError err) ->
          _format_input_data data = Raise e)
    /\ (forall d : DataFrame,
          pd_DataFrame data = OK d ->
          _format_input_data data = _format_input_data (PyFrame d)).
Proof.
  intros ext data Hnot.
  assert (Hfmt : forall k : DataFrame -> result DataFrame,
            bind (match data with
                  | PyFrame d => OK d
                  | _ => match pd_DataFrame data with
                         | Raise (ValueError err) =>
                             Raise (ValueError
                               ("Input ``data`` is not valid. Cause of error: " ++ err))
                         | r => r
                         end
                  end) k
            = bind (match pd_DataFrame data with
                    | Raise (ValueError err) =>
                        Raise (ValueError
                          ("Input ``data`` is not valid. Cause of error: " ++ err))
                    | r => r
                    end) k).
  { intros k. destruct data; try reflexivity. exfalso. exact (Hnot d eq_refl). }
  unfold _format_input_data. split; [|split].
  - intros err H. rewrite Hfmt, H. reflexivity.
  - intros e H Hne. rewrite Hfmt, H.
    destruct e; try reflexivity. exfalso. exact (Hne msg eq_refl).
  - intros d H. rewrite Hfmt, H. reflexivity.
Qed.

Lemma _format_input_data_conversion_witness :
  _format_input_data (ext := Reference.externals) (PyInt 5)
  = Raise (ValueError
      "Input ``data`` is not valid. Cause of error: DataFrame constructor not properly called!")
  /\ _format_input_data (ext := Reference.externals)
       (PyArray [[Num 1; Num 2]])
     = _format_input_data (ext := Reference.externals)
         (PyFrame (mkFrame (RangeIndex 2) [[Num 1; Num 2]])).
Proof.
  split.
  - apply (proj1 (_format_input_data_conversion Reference.externals (PyInt 5)
                    ltac:(discriminate))).
    reflexivity.
  - apply (proj2 (proj2 (_format_input_data_conversion Reference.externals
                           (PyArray [[Num 1; Num 2]]) ltac:(discriminate)))).
    reflexivity.
Defined.

(** *** The attribute checks of [_process_input_model] *)

(** Lines 308-323 on their own, past the [isinstance] of line 304: they
    return exactly when the attributes [level], [exog] and [data] of the
    model are all there and all test true, and what they return is the
    model they were given. *)
Theorem check_model_attributes_returns_iff :
  forall (model checked : pyobj),
    check_model_attributes model = OK checked
    <-> checked = model
        /\ exists level exog data : pyobj,
             getattr model "level" = OK level /\ truthy level = OK true
             /\ getattr model "exog" = OK exog /\ truthy exog = OK true
             /\ getattr model "data" = OK data /\ truthy data = OK true.
Proof.
  intros model checked. unfold check_model_attributes. split.
  - destruct (getattr model "level") as [level|[]] eqn:Hl; cbn; try discriminate.
    destruct (truthy level) as [[]|[]] eqn:Htl; cbn; try discriminate.
    destruct (getattr model "exog") as [exog|[]] eqn:He; cbn; try discriminate.
    destruct (truthy exog) as [[]|[]] eqn:Hte; cbn; try discriminate.
    destruct (getattr model "data") as [data|[]] eqn:Hd; cbn; try discriminate.
    destruct (truthy data) as [[]|[]] eqn:Htd; cbn; try discriminate.
    intros [= <-]. split; [reflexivity|].
    exists level, exog, data. repeat split; assumption.
  - intros (-> & level & exog & data & Hl & Htl & He & Hte & Hd & Htd).
    rewrite Hl, He, Hd. cbn. rewrite Htl, Hte, Htd. reflexivity.
Qed.

Lemma check_model_attributes_returns_iff_witness :
  check_model_attributes
    (PyInstance "UnobservedComponents"
       [("level", PyBool true); ("exog", PyArray [[Num 1]]);
        ("data", PyInstance "ModelData" [])])
  = OK (PyInstance "UnobservedComponents"
          [("level", PyBool true); ("exog", PyArray [[Num 1]]);
           ("data", PyInstance "ModelData" [])]).
Proof.
  apply (proj2 (check_model_attributes_returns_iff _ _)).
  split; [reflexivity|].
  exists (PyBool true), (PyArray [[Num 1]]), (PyInstance "ModelData" []).
  repeat split.
Defined.

(** Lines 308-322 on their own: the attributes are examined in the order
    [level], [exog], [data], and the first one that fails decides the
    error.  An absent [level] or [exog] is named as absent; a [level],
    [exog] or [data] that is there and tests false is named as not set;
    and an absent [data], with the two others in order, is reported under
    the name [exog]. *)
Theorem check_model_attributes_first_failure :
  forall (cls : string) (attrs : list (string * pyobj)),
    let model := PyInstance cls attrs in
    (dict_get attrs "level" = None ->
     check_model_attributes model = Raise (ValueError "Model must have attribute level"))
    /\ (forall level,
          dict_get attrs "level" = Some level -> truthy level = OK false ->
          check_model_attributes model
          = Raise (ValueError "Model must have `level` attribute set."))
    /\ (forall level,
          dict_get attrs "level" = Some level -> truthy level = OK true ->
          (dict_get attrs "exog" = None ->
           check_model_attributes model
           = Raise (ValueError "Model must have attribute exog"))
          /\ (forall exog,
                dict_get attrs "exog" = Some exog -> truthy exog = OK false ->
                check_model_attributes model
                = Raise (ValueError "Model must have `exog` attribute set."))
          /\ (forall exog,
                dict_get attrs "exog" = Some exog -> truthy exog = OK true ->
                (dict_get attrs "data" = None ->
                 check_model_attributes model
                 = Raise (ValueError "Model must have attribute exog"))
                /\ (forall data,
                      dict_get attrs "data" = Some data -> truthy data = OK false ->
                      check_model_attributes model
                      = Raise (ValueError "Model must have `data` attribute set.")))).
Proof.
  intros cls attrs model. subst model. unfold check_model_attributes, getattr.
  split; [|split].
  - intros ->. reflexivity.
  - intros level -> Ht. cbn. rewrite Ht. reflexivity.
  - intros level -> Ht. cbn. rewrite Ht. cbn. split; [|split].
    + intros ->. reflexivity.
    + intros exog -> Hte. cbn. rewrite Hte. reflexivity.
    + intros exog -> Hte. cbn. rewrite Hte. cbn. split.
      * intros ->. reflexivity.
      * intros data -> Htd. cbn. rewrite Htd. reflexivity.
Qed.

Lemma check_model_attributes_first_failure_witness :
  check_model_attributes
    (PyInstance "UnobservedComponents" [("data", PyInstance "ModelData" [])])
  = Raise (ValueError "Model must have attribute level")
  /\ check_model_attributes
       (PyInstance "UnobservedComponents"
          [("level", PyBool true); ("exog", PyList []);
           ("data", PyInstance "ModelData" [])])
     = Raise (ValueError "Model must have `exog` attribute set.")
  /\ check_model_attributes
       (PyInstance "UnobservedComponents"
          [("level", PyBool true); ("exog", PyArray [[Num 1]])])
     = Raise (ValueError "Model must have attribute exog").
Proof.
  split; [|split].
  - apply (proj1 (check_model_attributes_first_failure "UnobservedComponents"
                    [("data", PyInstance "ModelData" [])])).
    reflexivity.
  - destruct (proj2 (proj2 (check_model_attributes_first_failure
                              "UnobservedComponents"
                              [("level", PyBool true); ("exog", PyList []);
                               ("data", PyInstance "ModelData" [])]))
                    (PyBool true) eq_refl eq_refl) as (_ & H & _).
    apply (H (PyList [])); reflexivity.
  - destruct (proj2 (proj2 (check_model_attributes_first_failure
                              "UnobservedComponents"
                              [("level", PyBool true); ("exog", PyArray [[Num 1]])]))
                    (PyBool true) eq_refl eq_refl) as (_ & _ & H).
    apply (proj1 (H (PyArray [[Num 1]]) eq_refl eq_refl)). reflexivity.
Defined.

(** *** [_process_kwargs] *)

(** [_process_kwargs] reads the option [standardize] and nothing else.
    Not given, or given as [None], it is off; a boolean is kept; any other
    value ends in the [NameError] of line 346, [ValueException] being
    bound nowhere.  So what the method returns is always a dict with that
    one key and a boolean under it, and other options are dropped. *)
Theorem _process_kwargs_result :
  forall kwargs : list (string * pyobj),
    (forall r : pyobj,
       _process_kwargs kwargs = OK r ->
       exists b : bool, r = PyDict [("standardize", PyBool b)])
    /\ (dict_get kwargs "standardize" = None \/
        dict_get kwargs "standardize" = Some PyNone ->
        _process_kwargs kwargs = OK (PyDict [("standardize", PyBool false)]))
    /\ (forall b : bool,
          dict_get kwargs "standardize" = Some (PyBool b) ->
          _process_kwargs kwargs = OK (PyDict [("standardize", PyBool b)]))
    /\ (forall v : pyobj,
          dict_get kwargs "standardize" = Some v ->
          is_None v = false -> isinstance_bool v = false ->
          _process_kwargs kwargs = Raise (NameError "ValueException")).
Proof.
  intros kwargs. unfold _process_kwargs. split; [|split; [|split]].
  - intros r.
    destruct (dict_get kwargs "standardize") as [[]|]; cbn; try discriminate;
      intros [= <-]; eexists; reflexivity.
  - intros [-> | ->]; reflexivity.
  - intros b ->. reflexivity.
  - intros v -> Hn Hb. rewrite Hn, Hb. reflexivity.
Qed.

Lemma _process_kwargs_result_witness :
  _process_kwargs [("verbose", PyInt 1)] = OK (PyDict [("standardize", PyBool false)])
  /\ _process_kwargs [("verbose", PyInt 1); ("standardize", PyBool true)]
     = OK (PyDict [("standardize", PyBool true)])
  /\ _process_kwargs [("standardize", PyStr "yes")]
     = Raise (NameError "ValueException")
  /\ exists b : bool,
       PyDict [("standardize", PyBool false)] = PyDict [("standardize", PyBool b)].
Proof.
  split; [|split; [|split]].
  - apply (proj1 (proj2 (_process_kwargs_result [("verbose", PyInt 1)]))).
    left. reflexivity.
  - apply (proj1 (proj2 (proj2 (_process_kwargs_result
             [("verbose", PyInt 1); ("standardize", PyBool true)])))).
    reflexivity.
  - apply (proj2 (proj2 (proj2 (_process_kwargs_result
             [("standardize", PyStr "yes")]))) (PyStr "yes")); reflexivity.
  - apply (proj1 (_process_kwargs_result [("standardize", PyNone)])).
    reflexivity.
Defined.

(** *** The properties [model] and [model_args] *)

(** Before its first assignment neither property can be read.  Assigning
    a model that is not [None] makes [model] read back that model and
    leaves the data of the instance as it was.  Assigning [None] raises
    the [NameError] of line 207, for every instance, so that no default
    model is ever stored. *)
Theorem model_property_round_trip :
  (forall checked_input : checked_input_t,
     model_getter (BaseCausal__init__ checked_input) = Raise (AttributeError "_model")
     /\ model_args_getter (BaseCausal__init__ checked_input)
        = Raise (AttributeError "_model_args"))
  /\ (forall (self : self_t) (value : pyobj),
        is_None value = false ->
        exists self' : self_t,
          model_setter self value = OK self'
          /\ model_getter self' = OK value
          /\ pre_data self' = pre_data self /\ post_data self' = post_data self)
  /\ (forall self : self_t,
        model_setter self PyNone = Raise (NameError "UnobservedComponentsModel")).
Proof.
  split; [|split].
  - intros c. split; reflexivity.
  - intros self value H. unfold model_setter. rewrite H.
    eexists. repeat split.
  - intros self. reflexivity.
Qed.

Lemma model_property_round_trip_witness :
  exists self' : self_t,
    model_setter Reference.sample_self (PyInstance "UnobservedComponents" [])
    = OK self'
    /\ model_getter self' = OK (PyInstance "UnobservedComponents" [])
    /\ pre_data self' = pre_data Reference.sample_self
    /\ post_data self' = post_data Reference.sample_self.
Proof.
  apply (proj1 (proj2 model_property_round_trip) Reference.sample_self
               (PyInstance "UnobservedComponents" [])).
  reflexivity.
Defined.

(** Assigning [model_args]: a value without [get] is refused; options
    whose [standardize] tests true end in the [NameError] of line 183,
    whatever [standardize] computes; and whenever the assignment comes
    back, [model_args] reads back the value assigned and the data and
    [mu_sig] are as they were, so that no instance is ever
    standardized. *)
Theorem model_args_property :
  forall (ext : Externals) (self : self_t),
    (forall (items : list (string * pyobj)) (flag : pyobj),
       dict_get items "standardize" = Some flag ->
       truthy flag = OK true ->
       model_args_setter self (PyDict items) = Raise (NameError "normed_data"))
    /\ (forall (value : pyobj) (self' : self_t),
          model_args_setter self value = OK self' ->
          model_args_getter self' = OK value
          /\ pre_data self' = pre_data self /\ post_data self' = post_data self
          /\ mu_sig self' = mu_sig self)
    /\ (forall items : list (string * pyobj),
          dict_get items "standardize" = None ->
          model_args_setter self (PyDict items)
          = OK (set__model_args self (PyDict items)))
    /\ (forall s : string,
          model_args_setter self (PyStr s) = Raise (AttributeError "get")).
Proof.
  intros ext self. split; [|split; [|split]].
  - intros items flag Hf Ht. unfold model_args_setter. rewrite Hf. cbn.
    rewrite Ht. cbn. rewrite _standardize_pre_post_data_raises. reflexivity.
  - intros value self'. unfold model_args_setter.
    destruct value; cbn; try discriminate.
    destruct (truthy _) as [[]|e]; cbn; try discriminate.
    + rewrite _standardize_pre_post_data_raises. discriminate.
    + intros [= <-]. repeat split.
  - intros items H. unfold model_args_setter. rewrite H. reflexivity.
  - reflexivity.
Qed.

Lemma model_args_property_witness :
  model_args_setter (ext := Reference.externals) Reference.sample_self
    (PyDict [("standardize", PyBool true)])
  = Raise (NameError "normed_data")
  /\ model_args_getter
       (set__model_args Reference.sample_self (PyDict [("standardize", PyBool false)]))
     = OK (PyDict [("standardize", PyBool false)]).
Proof.
  split.
  - apply (proj1 (model_args_property Reference.externals Reference.sample_self)
                 [("standardize", PyBool true)] (PyBool true)); reflexivity.
  - apply (proj1 (proj2 (model_args_property Reference.externals
                           Reference.sample_self))
                 (PyDict [("standardize", PyBool false)])).
    reflexivity.
Defined.

(** *** [_convert_str_period_to_int] on any number of labels *)

Lemma position_of_nth (labels : list string) (i : nat) (label : string) :
  NoDup labels ->
  nth_error labels i = Some label ->
  position label labels = Some (Z.of_nat i).
Proof.
  intros Hnd. revert i. induction Hnd as [|l rest Hnotin Hnd IH]; intros i H.
  - destruct i; discriminate H.
  - destruct i as [|i]; cbn in H |- *.
    + injection H as ->. rewrite String.eqb_refl. reflexivity.
    + destruct (String.eqb l label) eqn:E.
      * apply String.eqb_eq in E. subst. exfalso. apply Hnotin.
        eapply nth_error_In. exact H.
      * rewrite (IH i H). cbn. f_equal. lia.
Qed.

(** Whatever the labels asked for and whatever the index,
    [_convert_str_period_to_int] has one of three outcomes: the answers of
    [get_loc], one for each label and in their order; a [ValueError] that
    names a label of the period for which [get_loc] raised [KeyError];
    or the exception, other than [KeyError], that [get_loc] raised for a
    label of the period. *)
Theorem _convert_str_period_to_int_outcomes :
  forall (d : DataFrame) (period : list string),
    (exists answers : list loc,
       _convert_str_period_to_int period d = OK answers
       /\ Forall2 (fun label answer => get_loc (index d) label = OK answer)
                  period answers)
    \/ (exists label key : string,
          In label period
          /\ get_loc (index d) label = Raise (KeyError key)
          /\ _convert_str_period_to_int period d
             = Raise (ValueError (label ++ " is not preset in data index")))
    \/ (exists (label : string) (e : exn),
          In label period
          /\ get_loc (index d) label = Raise e
          /\ (forall key : string, e <> KeyError key)
          /\ _convert_str_period_to_int period d = Raise e).
Proof.
  intros d period. induction period as [|date rest IH].
  - left. exists []. split; [reflexivity | constructor].
  - cbn. destruct (get_loc (index d) date) as [answer|e] eqn:Hloc.
    + destruct IH as [(answers & Hrest & Hall)
                     | [(label & key & Hin & Hkey & Herr)
                       | (label & e & Hin & He & Hne & Herr)]].
      * left. exists (answer :: answers). rewrite Hrest. split; [reflexivity|].
        constructor; assumption.
      * right. left. exists label, key. split; [right; exact Hin|].
        split; [exact Hkey|]. rewrite Herr. reflexivity.
      * right. right. exists label, e. split; [right; exact Hin|].
        split; [exact He|]. split; [exact Hne|]. rewrite Herr. reflexivity.
    + destruct e as [msg|msg|name|name|key|msg|msg|msg];
        try (right; right; eexists date, _; split; [left; reflexivity|];
             split; [exact Hloc|]; split; [discriminate | reflexivity]).
      right. left. exists date, key. split; [left; reflexivity|].
      split; [exact Hloc | reflexivity].
Qed.

(** The labels kept are found where they stand: on a [DatetimeIndex],
    every answer to a label spelled as the index keeps it is a position
    within the index, at which the index holds the label. *)
Lemma get_loc_kept_label (labels : list string) (elsewhere : string -> result loc)
  (label : string) :
  In label labels ->
  exists k : Z,
    get_loc (DatetimeIndex labels elsewhere) label = OK (At k)
    /\ (0 <= k < Z.of_nat (List.length labels))%Z
    /\ nth_error labels (Z.to_nat k) = Some label.
Proof.
  intros Hin. cbn. destruct (position label labels) as [k|] eqn:Hk.
  - exists k. destruct (position_sound _ _ _ Hk) as [H0 Hn].
    split; [reflexivity|]. split; [|exact Hn]. split; [exact H0|].
    assert (Z.to_nat k < List.length labels)%nat
      by (apply nth_error_Some; rewrite Hn; discriminate).
    lia.
  - apply position_complete in Hk. contradiction.
Qed.

(** On an index of distinct labels, the labels found at two offsets
    convert back to those offsets. *)
Theorem _convert_str_period_to_int_round_trip :
  forall (labels : list string) (elsewhere : string -> result loc)
         (cols : list Series) (i j : nat) (first last : string),
    NoDup labels ->
    nth_error labels i = Some first ->
    nth_error labels j = Some last ->
    _convert_str_period_to_int [first; last]
      (mkFrame (DatetimeIndex labels elsewhere) cols)
    = OK [At (Z.of_nat i); At (Z.of_nat j)].
Proof.
  intros labels elsewhere cols i j first last Hnd Hi Hj. cbn.
  rewrite (position_of_nth labels i first Hnd Hi).
  rewrite (position_of_nth labels j last Hnd Hj). reflexivity.
Qed.

Lemma _convert_str_period_to_int_round_trip_witness :
  _convert_str_period_to_int ["2018-01-01"; "2018-01-03"]
    (mkFrame Reference.january [])
  = OK [At 0; At 2].
Proof.
  apply (_convert_str_period_to_int_round_trip _ _ [] 0 2).
  - repeat constructor; simpl; intuition discriminate.
  - reflexivity.
  - reflexivity.
Defined.

(** An index that is not a [DatetimeIndex] holds no string label: the
    first label asked for is reported. *)
Theorem _convert_str_period_to_int_RangeIndex :
  forall (stop : nat) (cols : list Series) (date : string) (rest : list string),
    _convert_str_period_to_int (date :: rest) (mkFrame (RangeIndex stop) cols)
    = Raise (ValueError (date ++ " is not preset in data index")).
Proof. reflexivity. Qed.
